(** * Chart and report scripts: a shallow embedding and its properties

    The repository is a set of stand-alone Python scripts.  Each one declares
    a literal dataset, reshapes it, and hands the result to a plotting or
    tabular library.  This development embeds the reshaping code:

    - [Py]: the Python built-ins the scripts call on strings
      ([x[:n]], [str.replace], [str.strip], [str.split], [str.join],
      [str.upper], [int], [str]) and the exceptions they raise;
    - [Frame]: the part of pandas the scripts use (building a table from
      records or from columns, reading and assigning a column, selecting
      rows, the [.str] methods, [apply], [map], [astype(int)]);
    - [Csv]: the text [to_csv] writes, and a reader of such text;
    - one module per script, named after what the script draws or prints.

    The definitions come first, the properties after them.

    A Python [str] is modelled by [string], a sequence of bytes.  The
    texts that take part in length computations are plain ASCII, so
    [String.length] is Python's [len] on them, and white space, letters
    and digits are the ASCII ones.  Where a property of [str.upper] or of
    [int] would fail on other characters ([str.upper] lengthens some,
    [int] reads the decimal digits of every script), its statement asks
    for [Py.is_ascii].  A Python dict is a list of pairs in
    insertion order; a fallible statement returns a [Py.result].  The
    plotting library is outside: a script's figure is what it hands
    over. *)

From Stdlib Require Import Ascii String ZArith QArith Lia List Bool.
From stdpp Require Import base list strings gmap pretty.

Local Open Scope nat_scope.

(** ** Python built-ins *)

Module Py.

(** The exceptions the embedded code can raise. *)
Inductive exn : Set :=
| ValueError
| IndexError
| KeyError
| TypeError
| AttributeError.

(** A computation that returns or raises. *)
Inductive result (A : Type) : Type :=
| Ok (a : A)
| Raise (e : exn).
Arguments Ok {A} a.
Arguments Raise {A} e.

Definition bind {A B : Type} (m : result A) (k : A -> result B) : result B :=
  match m with
  | Ok a => k a
  | Raise e => Raise e
  end.


(** [x[:n]] for a non-negative [n]. *)
Fixpoint slice_to (n : nat) (x : string) : string :=
  match n, x with
  | S k, String c r => String c (slice_to k r)
  | _, _ => EmptyString
  end.

(** [str.isspace] on an ASCII character. *)
Definition is_space (c : ascii) : bool :=
  let n := nat_of_ascii c in
  (n =? 32) || ((9 <=? n) && (n <=? 13)) || ((28 <=? n) && (n <=? 31)).

Fixpoint lstrip (s : string) : string :=
  match s with
  | EmptyString => EmptyString
  | String c r => if is_space c then lstrip r else s
  end.

Fixpoint rstrip (s : string) : string :=
  match s with
  | EmptyString => EmptyString
  | String c r =>
      match rstrip r with
      | EmptyString => if is_space c then EmptyString else String c EmptyString
      | t => String c t
      end
  end.

(** [s.strip()] *)
Definition strip (s : string) : string := rstrip (lstrip s).

(** [s.replace(old, new)] for a non-empty [old]: occurrences are found
    from the left and do not overlap.  [skip] counts the characters of
    a match that are still to be dropped. *)
Fixpoint replace_from (old new : string) (skip : nat) (s : string) : string :=
  match s with
  | EmptyString => EmptyString
  | String c r =>
      match skip with
      | S k => replace_from old new k r
      | O =>
          if String.prefix old s
          then new +:+ replace_from old new (String.length old - 1) r
          else String c (replace_from old new 0 r)
      end
  end.

(** With an empty [old] Python puts [new] before every character and at
    the end. *)
Fixpoint intersperse (new s : string) : string :=
  match s with
  | EmptyString => new
  | String c r => new +:+ String c (intersperse new r)
  end.

Definition replace (old new s : string) : string :=
  match old with
  | EmptyString => intersperse new s
  | _ => replace_from old new 0 s
  end.

(** [s.split(sep)] for a one-character separator; the result is never
    empty. *)
Fixpoint split (sep : ascii) (s : string) : list string :=
  match s with
  | EmptyString => [EmptyString]
  | String c r =>
      if Ascii.eqb c sep then EmptyString :: split sep r
      else match split sep r with
           | h :: t => String c h :: t
           | [] => [String c EmptyString]
           end
  end.

(** [sep.join(l)] on a list of strings. *)
Definition join (sep : string) (l : list string) : string :=
  String.concat sep l.

(** [str.upper] on an ASCII text: the letters a to z are raised, every
    other character stays. *)
Definition upper_char (c : ascii) : ascii :=
  let n := nat_of_ascii c in
  if (97 <=? n) && (n <=? 122) then ascii_of_nat (n - 32) else c.

Fixpoint upper (s : string) : string :=
  match s with
  | EmptyString => EmptyString
  | String c r => String (upper_char c) (upper r)
  end.

(** The text holds ASCII characters only. *)
Definition is_ascii_char (c : ascii) : bool := nat_of_ascii c <? 128.

Fixpoint is_ascii (s : string) : bool :=
  match s with
  | EmptyString => true
  | String c r => is_ascii_char c && is_ascii r
  end.

Definition digit_val (c : ascii) : option Z :=
  let n := nat_of_ascii c in
  if (48 <=? n) && (n <=? 57) then Some (Z.of_nat (n - 48)) else None.

(** The digits of an integer literal: at least one digit, and single
    underscores only between digits. *)
Fixpoint int_digits (acc : Z) (after_digit : bool) (s : string) : option Z :=
  match s with
  | EmptyString => if after_digit then Some acc else None
  | String c r =>
      match digit_val c with
      | Some d => int_digits (10 * acc + d) true r
      | None =>
          if Ascii.eqb c "_"%char && after_digit then int_digits acc false r
          else None
      end
  end.

(** The white space [int] skips around a literal: space, tab, line feed,
    vertical tab, form feed and carriage return.  The separators U+001C
    to U+001F, which [str.strip] drops, are not among them. *)
Definition is_int_space (c : ascii) : bool :=
  let n := nat_of_ascii c in
  (n =? 32) || ((9 <=? n) && (n <=? 13)).

Fixpoint lstrip_by (p : ascii -> bool) (s : string) : string :=
  match s with
  | EmptyString => EmptyString
  | String c r => if p c then lstrip_by p r else s
  end.

Fixpoint rstrip_by (p : ascii -> bool) (s : string) : string :=
  match s with
  | EmptyString => EmptyString
  | String c r =>
      match rstrip_by p r with
      | EmptyString => if p c then EmptyString else String c EmptyString
      | t => String c t
      end
  end.

Fixpoint digit_count (s : string) : nat :=
  match s with
  | EmptyString => 0
  | String c r =>
      match digit_val c with
      | Some _ => S (digit_count r)
      | None => digit_count r
      end
  end.

(** [sys.get_int_max_str_digits()] as Python ships it. *)
Definition max_str_digits : nat := 4300.

(** [int(s)] in base ten on an ASCII text: the white space around the
    literal is dropped, one sign is allowed, and a literal of more digits
    than [max_str_digits] is refused. *)
Definition int (s : string) : result Z :=
  let literal := rstrip_by is_int_space (lstrip_by is_int_space s) in
  let parsed :=
    match literal with
    | EmptyString => None
    | String c r =>
        if Ascii.eqb c "+"%char then int_digits 0 false r
        else if Ascii.eqb c "-"%char then Z.opp <$> int_digits 0 false r
        else int_digits 0 false (String c r)
    end in
  match parsed with
  | Some z =>
      if digit_count literal <=? max_str_digits then Ok z
      else Raise ValueError
  | None => Raise ValueError
  end.

(** [t] is [s] with some characters left out. *)
Inductive subseq : string -> string -> Prop :=
| subseq_empty : subseq EmptyString EmptyString
| subseq_skip (c : ascii) (t s : string) :
    subseq t s -> subseq t (String c s)
| subseq_keep (c : ascii) (t s : string) :
    subseq t s -> subseq (String c t) (String c s).

(** [str(z)] for an integer. *)
Definition str_of_int (z : Z) : string := pretty z.

End Py.

(** Shows that a literal text is another one with letters left out. *)
Ltac letters_kept :=
  repeat first
    [ apply Py.subseq_empty
    | apply Py.subseq_keep
    | apply Py.subseq_skip; solve [letters_kept] ].

(** [result] is a monad; stdpp's [x ← m; k] sequences fallible steps. *)
Global Instance result_ret : MRet Py.result := @Py.Ok.
Global Instance result_bind : MBind Py.result := fun A B k m => Py.bind m k.


(** ** Tables: the part of pandas the scripts use *)

Module Frame.
Import Py.

(** What a table cell holds in these scripts. *)
Inductive cell : Set :=
| CStr (s : string)
| CInt (z : Z)
| CNaN.

(** A Python dict with string keys, in insertion order. *)
Abbreviation record := (list (string * cell)).

(** A DataFrame: its columns in order, each column the cells by row
    position. *)
Abbreviation DataFrame := (list (string * list cell)).

(** [d.get(k)] on an insertion-ordered dict. *)
Fixpoint assoc {V : Type} (k : string) (d : list (string * V)) : option V :=
  match d with
  | [] => None
  | (k', v) :: r => if String.eqb k k' then Some v else assoc k r
  end.

Definition add_key (ks : list string) (k : string) : list string :=
  if existsb (String.eqb k) ks then ks else ks ++ [k].

(** The column names of [pd.DataFrame(records)]: the keys in the order
    they first appear. *)
Definition record_keys (recs : list record) : list string :=
  fold_left (fun ks r => fold_left (fun ks' kv => add_key ks' kv.1) r ks) recs [].

(** [pd.DataFrame(records)]: a key a record lacks gives NaN. *)
Definition from_records (recs : list record) : DataFrame :=
  map (fun k => (k, map (fun r => default CNaN (assoc k r)) recs))
      (record_keys recs).

Definition same_length (n : nat) (col : string * list cell) : bool :=
  length col.2 =? n.

Definition rectangular (cols : list (string * list cell)) : bool :=
  match cols with
  | [] => true
  | (_, v) :: r => forallb (same_length (length v)) r
  end.

(** [pd.DataFrame(columns)]: columns of unequal length are refused. *)
Definition from_columns (cols : list (string * list cell)) : result DataFrame :=
  if rectangular cols then Ok cols else Raise ValueError.

Definition column_names (df : DataFrame) : list string := map fst df.

Definition nrows (df : DataFrame) : nat :=
  match df with
  | [] => 0
  | (_, v) :: _ => length v
  end.

(** [df[k]] *)
Definition getitem (k : string) (df : DataFrame) : result (list cell) :=
  match assoc k df with
  | Some v => Ok v
  | None => Raise KeyError
  end.

Fixpoint set_col (k : string) (vs : list cell) (df : DataFrame) : DataFrame :=
  match df with
  | [] => [(k, vs)]
  | (k', v) :: r =>
      if String.eqb k k' then (k, vs) :: r else (k', v) :: set_col k vs r
  end.

(** [df[k] = vs] with a list: an existing column is overwritten in place,
    a new one is appended.  On a table with rows the list must have one
    item per row.  A table without rows takes its rows from the list:
    the columns it has are filled with gaps to the length of the list. *)
Definition setitem (k : string) (vs : list cell) (df : DataFrame) : result DataFrame :=
  match df with
  | [] => Ok [(k, vs)]
  | _ =>
      if length vs =? nrows df then Ok (set_col k vs df)
      else if nrows df =? 0
      then Ok (set_col k vs
                 (map (fun col => (col.1, repeat CNaN (length vs))) df))
      else Raise ValueError
  end.

Definition is_str (c : cell) : bool :=
  match c with
  | CStr _ => true
  | _ => false
  end.

(** [col.str.method(...)]: the accessor exists on a column of strings (or
    an empty one); a cell that is not a string gives NaN. *)
Definition str_method (f : string -> string) (col : list cell) : result (list cell) :=
  match col with
  | [] => Ok []
  | _ =>
      if existsb is_str col
      then Ok (map (fun c => match c with CStr s => CStr (f s) | _ => CNaN end) col)
      else Raise AttributeError
  end.

(** [col.apply(f)] *)
Definition apply (f : cell -> result cell) (col : list cell) : result (list cell) :=
  mapM f col.

(** [col.map(d)] with a dict: a value that is no key gives NaN. *)
Definition map_dict (d : list (string * cell)) (col : list cell) : list cell :=
  map (fun c => match c with
                | CStr s => default CNaN (assoc s d)
                | _ => CNaN
                end) col.

(** [col.astype(int)] *)
Definition astype_int (col : list cell) : result (list cell) :=
  mapM (fun c => match c with
                 | CStr s => z ← int s; Ok (CInt z)
                 | CInt z => Ok (CInt z)
                 | CNaN => Raise ValueError
                 end) col.

(** [a == b] on cells; a gap equals nothing. *)
Definition cell_eqb (a b : cell) : bool :=
  match a, b with
  | CStr s, CStr t => String.eqb s t
  | CInt y, CInt z => Z.eqb y z
  | _, _ => false
  end.

Fixpoint select (mask : list bool) (col : list cell) : list cell :=
  match mask, col with
  | true :: m, c :: r => c :: select m r
  | false :: m, _ :: r => select m r
  | _, _ => []
  end.

(** [df[df[k] == v]]: the rows whose cell in column [k] is [v]. *)
Definition rows_where (k : string) (v : cell) (df : DataFrame) : result DataFrame :=
  col ← getitem k df;
  let mask := map (cell_eqb v) col in
  Ok (map (fun c => (c.1, select mask c.2)) df).

(** [str(c)]: how a cell reads as text. *)
Definition cell_text (c : cell) : string :=
  match c with
  | CStr s => s
  | CInt z => str_of_int z
  | CNaN => EmptyString
  end.

End Frame.

(** ** Display labels *)

Module Truncation.
Import Py.

(** [lambda x: x[:n] if len(x) > n else x] *)
Definition truncate (n : nat) (x : string) : string :=
  if n <? String.length x then slice_to n x else x.

(** [lambda x: x[:n] + '...' if len(x) > n else x] *)
Definition truncate_ellipsis (n : nat) (x : string) : string :=
  if n <? String.length x then slice_to n x +:+ "..." else x.

End Truncation.

(** ** [docs/brainstorming_MCP/chart_script.py]: the server scatter plot *)

Module McpChart.
Import Py Frame Truncation.

Definition data : list record :=
  [
    [("Server Name", CStr "Discord MCP Server");
     ("Category", CStr "Discord Integration");
     ("Key Features", CStr "Send messages, read history, manage channels, user management, reactions");
     ("Best Use Cases", CStr "Direct Discord bot control, server management, automated responses");
     ("Installation Complexity", CStr "Medium");
     ("GitHub Stars", CStr "150+")];
    [("Server Name", CStr "Web Search (Brave)");
     ("Category", CStr "Web Search");
     ("Key Features", CStr "Privacy-focused search, real-time results, web scraping");
     ("Best Use Cases", CStr "Information retrieval, fact-checking, research queries");
     ("Installation Complexity", CStr "Easy");
     ("GitHub Stars", CStr "200+")];
    [("Server Name", CStr "GitHub MCP Server");
     ("Category", CStr "Development Tools");
     ("Key Features", CStr "Repository management, code search, issue tracking, PRs");
     ("Best Use Cases", CStr "Code assistance, project management, developer workflows");
     ("Installation Complexity", CStr "Easy");
     ("GitHub Stars", CStr "500+")];
    [("Server Name", CStr "Memory/Knowledge Graph");
     ("Category", CStr "Memory & Knowledge");
     ("Key Features", CStr "Persistent memory, context retention, knowledge graphs");
     ("Best Use Cases", CStr "Long-term conversations, user preferences, project continuity");
     ("Installation Complexity", CStr "Medium");
     ("GitHub Stars", CStr "300+")];
    [("Server Name", CStr "PostgreSQL MCP");
     ("Category", CStr "Database");
     ("Key Features", CStr "Database queries, schema inspection, data analysis");
     ("Best Use Cases", CStr "Data-driven responses, analytics, user data management");
     ("Installation Complexity", CStr "Medium");
     ("GitHub Stars", CStr "180+")];
    [("Server Name", CStr "File System MCP");
     ("Category", CStr "File Operations");
     ("Key Features", CStr "File read/write, directory management, secure access");
     ("Best Use Cases", CStr "Document processing, file management, content generation");
     ("Installation Complexity", CStr "Easy");
     ("GitHub Stars", CStr "250+")];
    [("Server Name", CStr "Notion MCP");
     ("Category", CStr "Productivity");
     ("Key Features", CStr "Database management, page creation, content organization");
     ("Best Use Cases", CStr "Knowledge management, documentation, project tracking");
     ("Installation Complexity", CStr "Medium");
     ("GitHub Stars", CStr "220+")];
    [("Server Name", CStr "Slack MCP");
     ("Category", CStr "Communication");
     ("Key Features", CStr "Message sending, channel management, workspace integration");
     ("Best Use Cases", CStr "Team communication, notifications, workflow automation");
     ("Installation Complexity", CStr "Medium");
     ("GitHub Stars", CStr "190+")];
    [("Server Name", CStr "OpenAI Tools MCP");
     ("Category", CStr "AI Tools");
     ("Key Features", CStr "Image generation, text processing, AI model access");
     ("Best Use Cases", CStr "Content creation, AI-powered responses, multimedia generation");
     ("Installation Complexity", CStr "Easy");
     ("GitHub Stars", CStr "400+")];
    [("Server Name", CStr "Perplexity MCP");
     ("Category", CStr "AI Search");
     ("Key Features", CStr "Real-time web search, AI-powered research, citations");
     ("Best Use Cases", CStr "Research assistance, fact-checking, current events");
     ("Installation Complexity", CStr "Easy");
     ("GitHub Stars", CStr "160+")];
    [("Server Name", CStr "Weather MCP");
     ("Category", CStr "Data Services");
     ("Key Features", CStr "Current weather, forecasts, location-based data");
     ("Best Use Cases", CStr "Weather queries, location services, environmental data");
     ("Installation Complexity", CStr "Easy");
     ("GitHub Stars", CStr "120+")];
    [("Server Name", CStr "Google Calendar MCP");
     ("Category", CStr "Productivity");
     ("Key Features", CStr "Event management, scheduling, calendar integration");
     ("Best Use Cases", CStr "Meeting scheduling, reminders, calendar queries");
     ("Installation Complexity", CStr "Medium");
     ("GitHub Stars", CStr "140+")];
    [("Server Name", CStr "Redis MCP");
     ("Category", CStr "Database");
     ("Key Features", CStr "Key-value storage, caching, real-time data");
     ("Best Use Cases", CStr "Session management, caching, real-time features");
     ("Installation Complexity", CStr "Medium");
     ("GitHub Stars", CStr "110+")];
    [("Server Name", CStr "Docker MCP");
     ("Category", CStr "DevOps");
     ("Key Features", CStr "Container management, deployment, scaling");
     ("Best Use Cases", CStr "DevOps automation, container orchestration, deployment");
     ("Installation Complexity", CStr "Hard");
     ("GitHub Stars", CStr "180+")];
    [("Server Name", CStr "Stripe MCP");
     ("Category", CStr "Finance");
     ("Key Features", CStr "Payment processing, subscription management, billing");
     ("Best Use Cases", CStr "E-commerce, payment queries, subscription management");
     ("Installation Complexity", CStr "Medium");
     ("GitHub Stars", CStr "200+")]
  ].

(** The two [lambda]s handed to [apply]; [len] of a cell that is not a
    string raises. *)
Definition short_label (c : cell) : result cell :=
  match c with
  | CStr x => Ok (CStr (truncate 15 x))
  | _ => Raise TypeError
  end.

Definition short_text (c : cell) : result cell :=
  match c with
  | CStr x => Ok (CStr (truncate_ellipsis 50 x))
  | _ => Raise TypeError
  end.

(** The server name with the words "MCP Server" and "MCP" taken out. *)
Definition abbreviate (name : string) : string :=
  strip (replace "MCP" "" (replace "MCP Server" "" name)).

Definition Server_Short (name : string) : string :=
  truncate 15 (abbreviate name).

Definition Features_Short (text : string) : string :=
  truncate_ellipsis 50 text.

Definition Use_Cases_Short (text : string) : string :=
  truncate_ellipsis 50 text.

Definition complexity_map : list (string * cell) :=
  [("Easy", CInt 1); ("Medium", CInt 2); ("Hard", CInt 3)].

(** Lines 129-144: the table and its derived columns, statement by
    statement. *)
Definition prepare (recs : list record) : result DataFrame :=
  let df := from_records recs in
  stars ← getitem "GitHub Stars" df;
  stars ← str_method (replace "+" "") stars;
  stars ← astype_int stars;
  df ← setitem "Stars_Numeric" stars df;
  names ← getitem "Server Name" df;
  names ← str_method (replace "MCP Server" "") names;
  names ← str_method (replace "MCP" "") names;
  names ← str_method strip names;
  df ← setitem "Server_Short" names df;
  names ← getitem "Server_Short" df;
  names ← apply short_label names;
  df ← setitem "Server_Short" names df;
  feats ← getitem "Key Features" df;
  feats ← apply short_text feats;
  df ← setitem "Features_Short" feats df;
  uses ← getitem "Best Use Cases" df;
  uses ← apply short_text uses;
  df ← setitem "Use_Cases_Short" uses df;
  cplx ← getitem "Installation Complexity" df;
  setitem "Complexity_Numeric" (map_dict complexity_map cplx) df.

End McpChart.

(** ** [archive/chart_script.py]: the requests-per-minute bar chart *)

Module RpmChart.
Import Py Frame.

Definition data : list record :=
  [
    [("Model", CStr "Gemini 2.5 Flash");
     ("RPM", CInt 10);
     ("TPM", CInt 250000);
     ("RPD", CInt 250);
     ("Status", CStr "Current");
     ("Available_Free", CStr "Yes")];
    [("Model", CStr "Gemini 2.5 Flash-Lite");
     ("RPM", CInt 15);
     ("TPM", CInt 250000);
     ("RPD", CInt 1000);
     ("Status", CStr "Current");
     ("Available_Free", CStr "Yes")];
    [("Model", CStr "Gemini 2.0 Flash");
     ("RPM", CInt 15);
     ("TPM", CInt 1000000);
     ("RPD", CInt 200);
     ("Status", CStr "Current");
     ("Available_Free", CStr "Yes")];
    [("Model", CStr "Gemini 2.0 Flash-Lite");
     ("RPM", CInt 30);
     ("TPM", CInt 1000000);
     ("RPD", CInt 200);
     ("Status", CStr "Current");
     ("Available_Free", CStr "Yes")];
    [("Model", CStr "Gemini 1.5 Flash");
     ("RPM", CInt 15);
     ("TPM", CInt 250000);
     ("RPD", CInt 50);
     ("Status", CStr "Deprecated");
     ("Available_Free", CStr "Yes")];
    [("Model", CStr "Gemini 1.5 Flash-8B");
     ("RPM", CInt 15);
     ("TPM", CInt 250000);
     ("RPD", CInt 50);
     ("Status", CStr "Deprecated");
     ("Available_Free", CStr "Yes")];
    [("Model", CStr "Gemma 3 & 3n");
     ("RPM", CInt 30);
     ("TPM", CInt 15000);
     ("RPD", CInt 14400);
     ("Status", CStr "Current");
     ("Available_Free", CStr "Limited")]
  ].

Definition shorten (model : string) : string :=
  replace " & 3n" ""
    (replace "-Lite" "L"
       (replace "Flash" "F"
          (replace "Gemma " "Ga"
             (replace "Gemini " "G" model)))).

(** Lines 17-20: the table and its [Short_Model] column. *)
Definition prepare (recs : list record) : result DataFrame :=
  let df := from_records recs in
  models ← getitem "Model" df;
  models ← str_method (replace "Gemini " "G") models;
  models ← str_method (replace "Gemma " "Ga") models;
  models ← str_method (replace "Flash" "F") models;
  models ← str_method (replace "-Lite" "L") models;
  models ← str_method (replace " & 3n" "") models;
  setitem "Short_Model" models df.

(** Lines 28-31: the colour of one status. *)
Definition status_color (status : cell) : string :=
  match status with
  | CStr s => if String.eqb s "Current" then "#1FB8CD" else "#B4413C"
  | _ => "#B4413C"
  end.

(** Lines 27-31, one turn of the loop: [colors.append(...)]. *)
Definition color_step (colors : list string) (status : cell) : list string :=
  colors ++ [status_color status].

(** The loop over [df['Status']], started on the empty list. *)
Definition status_colors (statuses : list cell) : list string :=
  fold_left color_step statuses [].

(** Status [s] is given colour [c]: some row has the status and its bar
    the colour. *)
Definition assigned (statuses : list cell) (s : cell) (c : string) : Prop :=
  exists i, statuses !! i = Some s /\ status_colors statuses !! i = Some c.

End RpmChart.

(** ** [archive/chart_script_1.py]: the tokens-per-minute bar chart *)

Module TpmChart.
Import Py Frame.

Definition data : list record :=
  [
    [("Model", CStr "Gemini 2.5 Flash");
     ("RPM", CInt 10);
     ("TPM", CInt 250000);
     ("RPD", CInt 250);
     ("Status", CStr "Current")];
    [("Model", CStr "Gemini 2.5 Flash-Lite");
     ("RPM", CInt 15);
     ("TPM", CInt 250000);
     ("RPD", CInt 1000);
     ("Status", CStr "Current")];
    [("Model", CStr "Gemini 2.0 Flash");
     ("RPM", CInt 15);
     ("TPM", CInt 1000000);
     ("RPD", CInt 200);
     ("Status", CStr "Current")];
    [("Model", CStr "Gemini 2.0 Flash-Lite");
     ("RPM", CInt 30);
     ("TPM", CInt 1000000);
     ("RPD", CInt 200);
     ("Status", CStr "Current")];
    [("Model", CStr "Gemini 1.5 Flash");
     ("RPM", CInt 15);
     ("TPM", CInt 250000);
     ("RPD", CInt 50);
     ("Status", CStr "Deprecated")];
    [("Model", CStr "Gemini 1.5 Flash-8B");
     ("RPM", CInt 15);
     ("TPM", CInt 250000);
     ("RPD", CInt 50);
     ("Status", CStr "Deprecated")];
    [("Model", CStr "Gemma 3 & 3n");
     ("RPM", CInt 30);
     ("TPM", CInt 15000);
     ("RPD", CInt 14400);
     ("Status", CStr "Limited")]
  ].

Definition color_map : gmap string string :=
  {[ "Current" := "#1FB8CD"; "Deprecated" := "#B4413C"; "Limited" := "#D2BA4C" ]}.

(** [color_map[status]] *)
Definition color_of (status : string) : result string :=
  match color_map !! status with
  | Some c => Ok c
  | None => Raise KeyError
  end.

Definition statuses : list string := ["Current"; "Deprecated"; "Limited"].

(** One bar trace: its name, its colour and the bars it shows. *)
Record trace : Set := mk_trace {
  trace_name : string;
  marker_color : string;
  trace_y : list cell;
  trace_x : list cell
}.

(** Lines 30-40, one turn of the loop: the rows with the status are
    taken, and a trace is added when there are any. *)
Definition trace_step (df : DataFrame) (acc : result (list trace))
    (status : string) : result (list trace) :=
  traces ← acc;
  status_data ← rows_where "Status" (CStr status) df;
  if nrows status_data =? 0 then Ok traces
  else
    y ← getitem "Model" status_data;
    x ← getitem "TPM" status_data;
    c ← color_of status;
    Ok (traces ++ [mk_trace status c y x]).

Definition traces_for (cats : list string) (df : DataFrame) : result (list trace) :=
  fold_left (trace_step df) cats (Ok []).

(** A trace carries the colour the table holds for its status. *)
Definition trace_ok (t : trace) : Prop :=
  color_map !! trace_name t = Some (marker_color t).

(** Lines 17-40 *)
Definition traces (recs : list record) : result (list trace) :=
  traces_for statuses (from_records recs).

End TpmChart.

(** ** [archive/chart_script (3).py]: the user-group bar chart *)

Module UserGroups.
Import Py Truncation.

Record group : Set := {
  user_group : string;
  demographics : string;
  priority_features : list string;
  interaction_style : string;
  ai_capabilities : list string
}.

Definition data : list group :=
  [
    {| user_group := "Gaming Communities";
       demographics := "Ages 16-34, 50-5000 members";
       priority_features := ["Real-time responses"; "Tournament management"; "XP/Leaderboards"; "Voice integration"; "Clan systems"];
       interaction_style := "Fast-paced, competitive, casual language";
       ai_capabilities := ["Game stats analysis"; "Strategy suggestions"; "Event scheduling"; "Automated moderation"] |};
    {| user_group := "Educational Groups";
       demographics := "Ages 16-25, 20-500 members";
       priority_features := ["Study session management"; "Quiz systems"; "Progress tracking"; "Resource sharing"; "Collaboration tools"];
       interaction_style := "Structured, formal, supportive";
       ai_capabilities := ["Homework help"; "Study planning"; "Academic research"; "Learning analytics"] |};
    {| user_group := "Content Creators";
       demographics := "Ages 18-35, 100-10000 members";
       priority_features := ["Engagement tracking"; "Content promotion"; "Analytics"; "Community building"; "Feedback systems"];
       interaction_style := "Brand-focused, engaging, promotional";
       ai_capabilities := ["Content optimization"; "Audience insights"; "Growth strategies"; "Creative assistance"] |};
    {| user_group := "Professional Communities";
       demographics := "Ages 25-45, 50-1000 members";
       priority_features := ["Professional communication"; "Compliance tools"; "Productivity features"; "Integration"; "Security"];
       interaction_style := "Formal, business-focused, efficient";
       ai_capabilities := ["Meeting summaries"; "Task management"; "Knowledge base"; "Professional networking"] |}
  ].

Definition colors : list string := ["#1FB8CD"; "#FFC185"; "#ECEBD5"; "#5D878F"].

(** [text.split(',')[i]] *)
Definition field (i : nat) (text : string) : result string :=
  match split ","%char text !! i with
  | Some f => Ok f
  | None => Raise IndexError
  end.

(** [lo, hi = map(int, s.split('-'))]: a part that is no integer and a
    number of parts other than two are both a [ValueError]. *)
Definition int_pair (s : string) : result (Z * Z) :=
  match split "-"%char s with
  | [a; b] => lo ← int a; hi ← int b; Ok (lo, hi)
  | _ => Raise ValueError
  end.

(** Line 48 *)
Definition age_range (demographics : string) : result string :=
  f ← field 0 demographics; Ok (replace "Ages " "" f).

(** Lines 48-49 *)
Definition parse_age (demographics : string) : result (Z * Z) :=
  r ← age_range demographics; int_pair r.

(** Lines 53-54 *)
Definition member_range (demographics : string) : result string :=
  f ← field 1 demographics;
  let member_info := strip f in
  match split " "%char member_info !! 0 with
  | Some r => Ok r
  | None => Raise IndexError
  end.

(** Lines 53-55 *)
Definition parse_members (demographics : string) : result (Z * Z) :=
  r ← member_range demographics; int_pair r.

(** [(lo + hi) / 2]: Python's true division, exact on the sums at hand. *)
Definition midpoint (p : Z * Z) : Q := inject_Z (p.1 + p.2) / 2.

(** Lines 59-61 *)
Definition group_short (name : string) : string :=
  let g := strip (replace "Professional" "Prof"
                    (replace "Educational" "Edu"
                       (replace "Communities" "" name))) in
  if 15 <? String.length g then slice_to 15 g else g.











Section Rows.

(** [np.log10], which this development does not compute. *)
Context {F : Type} (log10 : Q -> F).

Record chart_row : Type := {
  row_group : string;
  full_group : string;
  priority_features_count : nat;
  ai_capabilities_count : nat;
  median_age : Q;
  member_size_scaled : F;
  color : string
}.

(** One turn of the loop of lines 42-79.  The hover text, which no other
    field depends on, is left out. *)
Definition process (i : nat) (g : group) : result chart_row :=
  age ← parse_age (demographics g);
  members ← parse_members (demographics g);
  c ← match colors !! i with
      | Some c => Ok c
      | None => Raise IndexError
      end;
  Ok {| row_group := group_short (user_group g);
        full_group := user_group g;
        priority_features_count := length (priority_features g);
        ai_capabilities_count := length (ai_capabilities g);
        median_age := midpoint age;
        member_size_scaled := log10 (midpoint members);
        color := c |}.

Fixpoint process_from (i : nat) (gs : list group) : result (list chart_row) :=
  match gs with
  | [] => Ok []
  | g :: rest =>
      row ← process i g;
      rows ← process_from (S i) rest;
      Ok (row :: rows)
  end.

Definition chart_data (gs : list group) : result (list chart_row) :=
  process_from 0 gs.

End Rows.

End UserGroups.

(** ** [archive/chart_script (2).py]: the flow diagram *)

Module FlowChart.
Import Py.

Definition colors : list string :=
  ["#1FB8CD"; "#FFC185"; "#ECEBD5"; "#5D878F"; "#D2BA4C"].

Definition input_types : list string :=
  ["Text"; "Images"; "Audio"; "Video"; "Documents"].

(** The four lists the script appends to (lines 33-36). *)
Record arrays : Set := {
  labels : list string;
  sources : list nat;
  targets : list nat;
  values : list nat
}.

Definition empty : arrays :=
  {| labels := []; sources := []; targets := []; values := [] |}.

Definition add_label (a : arrays) (l : string) : arrays :=
  {| labels := labels a ++ [l]; sources := sources a;
     targets := targets a; values := values a |}.

(** Lines 43-44 *)
Definition input_step (a : arrays) (input_type : string) : arrays :=
  add_label a (input_type +:+ " Input").

(** Lines 47-57: a type outside the five adds no label. *)
Definition processing_step (a : arrays) (input_type : string) : arrays :=
  if String.eqb input_type "Text" then add_label a "NLP Process"
  else if String.eqb input_type "Images" then add_label a "Vision Process"
  else if String.eqb input_type "Audio" then add_label a "Audio Process"
  else if String.eqb input_type "Video" then add_label a "Video Process"
  else if String.eqb input_type "Documents" then add_label a "Doc Process"
  else a.

(** Lines 60-70 *)
Definition output_step (a : arrays) (input_type : string) : arrays :=
  if String.eqb input_type "Text" then add_label a "Smart Chat"
  else if String.eqb input_type "Images" then add_label a "Visual Bot"
  else if String.eqb input_type "Audio" then add_label a "Voice Bot"
  else if String.eqb input_type "Video" then add_label a "Media Bot"
  else if String.eqb input_type "Documents" then add_label a "Study Bot"
  else a.

(** Lines 73-82, one turn: the link from input [i] to its processing node
    and the link from there to its output node. *)
Definition connect_step (a : arrays) (i : nat) : arrays :=
  {| labels := labels a;
     sources := sources a ++ [i; i + 5];
     targets := targets a ++ [i + 5; i + 10];
     values := values a ++ [10; 10] |}.

(** [for i in range(n)] over [connect_step]; the script has [n = 5]. *)
Definition connect (n : nat) (a : arrays) : arrays :=
  fold_left connect_step (seq 0 n) a.

(** Lines 33-82 for a given list of input types. *)
Definition assemble (types : list string) : arrays :=
  let a := fold_left input_step types empty in
  let a := fold_left processing_step types a in
  let a := fold_left output_step types a in
  connect 5 a.

(** [colors[i]] *)
Definition color_at (i : nat) : result string :=
  match colors !! i with
  | Some c => Ok c
  | None => Raise IndexError
  end.

(** Lines 85-91 *)
Definition node_colors : result (list string) :=
  a ← mapM color_at (seq 0 5);
  b ← mapM color_at (seq 0 5);
  c ← mapM color_at (seq 0 5);
  Ok (a ++ b ++ c).

(** Line 106 *)
Definition link_color (i : nat) : string :=
  if i <? 5 then "rgba(31, 184, 205, 0.2)"
  else if i <? 10 then "rgba(255, 193, 133, 0.2)"
  else if i <? 15 then "rgba(236, 235, 213, 0.2)"
  else if i <? 20 then "rgba(93, 135, 143, 0.2)"
  else "rgba(210, 186, 76, 0.2)".

(** What [go.Sankey] is given (lines 94-108). *)
Record figure : Set := {
  node_label : list string;
  node_color : list string;
  link_source : list nat;
  link_target : list nat;
  link_value : list nat;
  link_colors : list string
}.

Definition build (types : list string) : result figure :=
  let a := assemble types in
  nc ← node_colors;
  Ok {| node_label := labels a;
        node_color := nc;
        link_source := sources a;
        link_target := targets a;
        link_value := values a;
        link_colors := map link_color (seq 0 (length (sources a))) |}.

(** How a run ends: the figure went to the renderer, which wrote the
    file, or an exception stopped the script before. *)
Inductive outcome : Set :=
| Rendered (fig : figure) (file : string)
| Stopped (e : exn).

(** The whole script: nothing stands between [build] and the renderer. *)
Definition run (types : list string) : outcome :=
  match build types with
  | Ok fig => Rendered fig "multimodal_flow_chart.png"
  | Raise e => Stopped e
  end.

(** Where the node at position [i] of stage [s] sits in the flat label
    list. *)
Definition node (s i : nat) : nat := 5 * s + i.

(** The links of a figure as pairs. *)
Definition links (fig : figure) : list (nat * nat) :=
  zip (link_source fig) (link_target fig).

(** No link points outside the node labels. *)
Definition in_bounds (fig : figure) : bool :=
  forallb (fun i => i <? length (node_label fig))
          (link_source fig ++ link_target fig).

End FlowChart.

(** ** CSV text *)

Module Csv.
Import Py Frame.

Definition quote : ascii := "034"%char.
Definition comma : ascii := ","%char.
Definition lf : ascii := "010"%char.

(** The characters that make the writer put a field in quotes: the
    delimiter, the quote and the characters of the line terminator, which
    is the line feed here.  A carriage return on its own does not. *)
Definition special (c : ascii) : bool :=
  Ascii.eqb c comma || Ascii.eqb c quote || Ascii.eqb c lf.

Fixpoint needs_quotes (s : string) : bool :=
  match s with
  | EmptyString => false
  | String c r => special c || needs_quotes r
  end.

(** Every quote inside a quoted field is written twice. *)
Fixpoint double_quotes (s : string) : string :=
  match s with
  | EmptyString => EmptyString
  | String c r =>
      if Ascii.eqb c quote then String quote (String quote (double_quotes r))
      else String c (double_quotes r)
  end.



Definition write_field (s : string) : string :=
  if needs_quotes s
  then String quote (double_quotes s +:+ String quote EmptyString)
  else s.

(** One line of the file.  A row that is a single empty field is written
    as a pair of quotes, so that the line is not blank. *)
Definition write_row (fields : list string) : string :=
  match fields with
  | [EmptyString] => String quote (String quote (String lf EmptyString))
  | _ => join (String comma EmptyString) (map write_field fields)
         +:+ String lf EmptyString
  end.

Definition has_nan (col : list cell) : bool :=
  existsb (fun c => match c with CNaN => true | _ => false end) col.

(** How the cells of one column are written: a column of numbers with a
    gap is a column of floats, otherwise every cell reads as [str] gives
    it, a gap as the empty text. *)
Definition column_text (col : list cell) : list string :=
  if has_nan col && negb (existsb is_str col)
  then map (fun c => match c with
                     | CInt z => str_of_int z +:+ ".0"
                     | _ => cell_text c
                     end) col
  else map cell_text col.

Definition row_text (df : DataFrame) (i : nat) : list string :=
  map (fun col => default EmptyString (column_text col.2 !! i)) df.

(** The rows of a table as text, in order. *)
Definition rows_text (df : DataFrame) : list (list string) :=
  map (row_text df) (seq 0 (nrows df)).

(** [df.to_csv(path, index=False)] with the defaults of pandas: the header
    line, then one line per row, written by Python's csv writer (comma,
    quotes where needed, quotes doubled), each line ended by a line feed. *)
Definition to_csv (df : DataFrame) : string :=
  write_row (column_names df)
  +:+ String.concat EmptyString (map write_row (rows_text df)).

(** Reading CSV text back.  The reader keeps the field and the row it is
    in the middle of. *)
Inductive state : Set :=
| StartRecord
| StartField
| InField
| InQuoted
| QuoteInQuoted
| EatLineFeed.







(** What a run leaves behind: the column mappings given to
    [pd.DataFrame], in order, and the files written, each with its name
    and text. *)
Record effects : Set := {
  tables_built : list (list (string * list cell));
  files_written : list (string * string)
}.

End Csv.

(** ** [archive/script.py]: the rate-limit table *)

Module LimitsTable.
Import Py Frame Csv.

Definition data : list (string * list cell) :=
  [
    ("Model",
       [CStr "Gemini 2.5 Pro";
        CStr "Gemini 2.5 Flash";
        CStr "Gemini 2.5 Flash-Lite";
        CStr "Gemini 2.0 Flash";
        CStr "Gemini 2.0 Flash-Lite";
        CStr "Gemini 1.5 Flash";
        CStr "Gemini 1.5 Flash-8B";
        CStr "Gemma 3 & 3n"]);
    ("RPM (Requests/Min)",
       [CInt 5;
        CInt 10;
        CInt 15;
        CInt 15;
        CInt 30;
        CInt 15;
        CInt 15;
        CInt 30]);
    ("TPM (Tokens/Min)",
       [CStr "250,000";
        CStr "250,000";
        CStr "250,000";
        CStr "1,000,000";
        CStr "1,000,000";
        CStr "250,000";
        CStr "250,000";
        CStr "15,000"]);
    ("RPD (Requests/Day)",
       [CInt 100;
        CInt 250;
        CInt 1000;
        CInt 200;
        CInt 200;
        CInt 50;
        CInt 50;
        CInt 14400]);
    ("Input Cost",
       [CStr "Not Available";
        CStr "Free";
        CStr "Free";
        CStr "Free";
        CStr "Free";
        CStr "Free";
        CStr "Free";
        CStr "Free"]);
    ("Output Cost",
       [CStr "Not Available";
        CStr "Free";
        CStr "Free";
        CStr "Free";
        CStr "Free";
        CStr "Free";
        CStr "Free";
        CStr "Free"]);
    ("Best For Chatbots",
       [CStr "No (Not available on free)";
        CStr "Yes";
        CStr "Yes";
        CStr "Yes";
        CStr "Yes";
        CStr "Yes (Deprecated)";
        CStr "Yes (Deprecated)";
        CStr "Limited (Low TPM)"])
  ].


End LimitsTable.

(** ** [archive/script (3).py]: the feature tables *)

Module FeatureTable.
Import Py Frame Csv.

Definition feature_data : list (string * list cell) :=
  [
    ("Feature Category",
       [CStr "Response Style";
        CStr "Response Style";
        CStr "Response Style";
        CStr "Response Style";
        CStr "Memory System";
        CStr "Memory System";
        CStr "Memory System";
        CStr "Memory System";
        CStr "Learning Focus";
        CStr "Learning Focus";
        CStr "Learning Focus";
        CStr "Learning Focus";
        CStr "Fact-Checking";
        CStr "Fact-Checking";
        CStr "Fact-Checking";
        CStr "Fact-Checking";
        CStr "Multimodal Features";
        CStr "Multimodal Features";
        CStr "Multimodal Features";
        CStr "Multimodal Features";
        CStr "Automation Level";
        CStr "Automation Level";
        CStr "Automation Level";
        CStr "Automation Level";
        CStr "Engagement Features";
        CStr "Engagement Features";
        CStr "Engagement Features";
        CStr "Engagement Features";
        CStr "Privacy Level";
        CStr "Privacy Level";
        CStr "Privacy Level";
        CStr "Privacy Level"]);
    ("Gaming Communities",
       [CStr "Fast, casual, meme-friendly";
        CStr "Short-term game sessions";
        CStr "Gaming strategies and tips";
        CStr "Game stats and meta updates";
        CStr "Voice message analysis";
        CStr "High - automated moderation";
        CStr "XP tracking, tournaments";
        CStr "Standard - public channels";
        CStr "Educational Groups";
        CStr "Patient, encouraging, formal";
        CStr "Long-term academic progress";
        CStr "Study habits and knowledge gaps";
        CStr "Academic sources priority";
        CStr "Document and PDF analysis";
        CStr "Medium - scheduled assistance";
        CStr "Study groups, progress tracking";
        CStr "Enhanced - student data protection"]);
    ("Content Creators",
       [CStr "Brand-aligned, engaging";
        CStr "Content performance history";
        CStr "Audience preferences patterns";
        CStr "Trend and engagement data";
        CStr "Image and video analysis";
        CStr "Medium - content scheduling";
        CStr "Analytics dashboards, growth tracking";
        CStr "Standard - creator-controlled";
        CStr "Professional Communities";
        CStr "Professional, concise, helpful";
        CStr "Project and meeting context";
        CStr "Work patterns and efficiency";
        CStr "Business and industry sources";
        CStr "Document collaboration features";
        CStr "Low - human oversight required";
        CStr "Meeting summaries, task management";
        CStr "High - enterprise compliance"])
  ].

Definition data : list (string * list cell) :=
  [
    ("Feature Category",
       [CStr "Response Style";
        CStr "Memory System";
        CStr "Learning Focus";
        CStr "Fact-Checking Priority";
        CStr "Multimodal Features";
        CStr "Automation Level";
        CStr "Engagement Features";
        CStr "Privacy Level"]);
    ("Gaming Communities",
       [CStr "Fast, casual, meme-friendly";
        CStr "Short-term game sessions and player stats";
        CStr "Gaming strategies, tips, and meta updates";
        CStr "Game stats and competitive data priority";
        CStr "Voice message analysis, game screenshots";
        CStr "High - automated moderation and events";
        CStr "XP tracking, leaderboards, tournaments";
        CStr "Standard - public gaming channels"]);
    ("Educational Groups",
       [CStr "Patient, encouraging, formal tone";
        CStr "Long-term academic progress tracking";
        CStr "Study habits and knowledge gap identification";
        CStr "Academic sources and educational content priority";
        CStr "Document/PDF analysis, study materials";
        CStr "Medium - scheduled study assistance";
        CStr "Study groups, progress tracking, quizzes";
        CStr "Enhanced - student data protection"]);
    ("Content Creators",
       [CStr "Brand-aligned, engaging, promotional";
        CStr "Content performance and audience history";
        CStr "Audience preferences and engagement patterns";
        CStr "Trend data and content accuracy verification";
        CStr "Image/video analysis, content optimization";
        CStr "Medium - content scheduling and promotion";
        CStr "Analytics dashboards, growth tracking, feedback";
        CStr "Standard - creator-controlled privacy"]);
    ("Professional Communities",
       [CStr "Professional, concise, business-focused";
        CStr "Project context and meeting history";
        CStr "Work patterns and productivity optimization";
        CStr "Business/industry sources and compliance data";
        CStr "Document collaboration, presentation analysis";
        CStr "Low - human oversight for important decisions";
        CStr "Meeting summaries, task management, networking";
        CStr "High - enterprise compliance and security"])
  ].

Definition summary_stats : list (string * list cell) :=
  [
    ("User Group",
       [CStr "Gaming Communities";
        CStr "Educational Groups";
        CStr "Content Creators";
        CStr "Professional Communities"]);
    ("Typical Age Range",
       [CStr "16-34";
        CStr "16-25";
        CStr "18-35";
        CStr "25-45"]);
    ("Server Size Range",
       [CStr "50-5,000";
        CStr "20-500";
        CStr "100-10,000";
        CStr "50-1,000"]);
    ("Daily Active %",
       [CStr "60-80%";
        CStr "40-60%";
        CStr "50-70%";
        CStr "30-50%"]);
    ("Voice Usage",
       [CStr "Very High";
        CStr "Medium";
        CStr "Medium-High";
        CStr "Low-Medium"]);
    ("Peak Activity",
       [CStr "Evenings/Weekends";
        CStr "Study Hours";
        CStr "Content Release Times";
        CStr "Business Hours"]);
    ("Primary Use Case",
       [CStr "Entertainment/Competition";
        CStr "Learning/Collaboration";
        CStr "Community Building";
        CStr "Professional Work"])
  ].

(** Lines 106-131: two tables are built and written; [feature_data] is
    not mentioned again after line 56. *)
Definition run : result effects :=
  df ← from_columns data;
  let file1 := ("discord_bot_feature_customization.csv", to_csv df) in
  summary_df ← from_columns summary_stats;
  let file2 := ("discord_user_group_demographics.csv", to_csv summary_df) in
  Ok {| tables_built := [data; summary_stats];
        files_written := [file1; file2] |}.

End FeatureTable.

(** ** [archive/script_1 (2).py] and [archive/script (2).py]: the
    capability report *)

Module Report.
Import Py.

(** The values of the nested datasets. *)
#[warnings="-register-all"]
Inductive pyval : Set :=
| PStr (s : string)
| PInt (z : Z)
| PList (items : list pyval)
| PDict (entries : list (string * pyval)).

Definition nl : string := String "010"%char EmptyString.

Fixpoint has_char (c : ascii) (s : string) : bool :=
  match s with
  | EmptyString => false
  | String x r => Ascii.eqb x c || has_char c r
  end.

Definition hex_digit (n : nat) : ascii :=
  if n <? 10 then ascii_of_nat (48 + n) else ascii_of_nat (87 + n).

(** One character inside [repr] of a string quoted with [q]. *)
Definition escape (q c : ascii) : string :=
  let n := nat_of_ascii c in
  if Ascii.eqb c "\"%char then "\\"
  else if Ascii.eqb c q then String "\"%char (String q EmptyString)
  else if n =? 10 then "\n"
  else if n =? 13 then "\r"
  else if n =? 9 then "\t"
  else if (n <? 32) || (n =? 127)
       then "\x" +:+ String (hex_digit (n / 16))
                      (String (hex_digit (n mod 16)) EmptyString)
  else String c EmptyString.

Fixpoint escape_all (q : ascii) (s : string) : string :=
  match s with
  | EmptyString => EmptyString
  | String c r => escape q c +:+ escape_all q r
  end.

(** [repr(s)]: single quotes, unless the text has one and no double
    quote. *)
Definition repr_str (s : string) : string :=
  let q := if has_char "'"%char s && negb (has_char "034"%char s)
           then "034"%char else "'"%char in
  String q (escape_all q s +:+ String q EmptyString).

(** [repr(v)] *)
Fixpoint repr (v : pyval) : string :=
  match v with
  | PStr s => repr_str s
  | PInt z => str_of_int z
  | PList items => "[" +:+ join ", " (map repr items) +:+ "]"
  | PDict entries =>
      "{" +:+ join ", " (map (fun kv => match kv with
                                        | (k, x) => repr_str k +:+ ": " +:+ repr x
                                        end) entries) +:+ "}"
  end.

(** [str(v)], which is what an f-string puts in place of [{v}]. *)
Definition str (v : pyval) : string :=
  match v with
  | PStr s => s
  | _ => repr v
  end.

(** [sep.join(items)]: every item has to be a string. *)
Definition join_items (sep : string) (items : list pyval) : result string :=
  l ← mapM (fun v => match v with
                     | PStr s => Ok s
                     | _ => Raise TypeError
                     end) items;
  Ok (join sep l).

(** What a piece of the script printed, one text per call of [print], and
    the exception that ended it, if any. *)
Record run : Set := {
  printed : list string;
  raised : option exn
}.

Definition say (text : string) : run := {| printed := [text]; raised := None |}.

Definition fail (e : exn) : run := {| printed := []; raised := Some e |}.

Definition skip : run := {| printed := []; raised := None |}.

(** [print(f"...")] where building the text may raise. *)
Definition say_result (m : result string) : run :=
  match m with
  | Ok text => say text
  | Raise e => fail e
  end.

Definition then_run (a b : run) : run :=
  match raised a with
  | Some _ => a
  | None => {| printed := printed a ++ printed b; raised := raised b |}
  end.

Fixpoint for_each {A : Type} (body : A -> run) (l : list A) : run :=
  match l with
  | [] => skip
  | x :: r => then_run (body x) (for_each body r)
  end.

Definition bullet : string := "     • ".



(** Lines 180-191 (225-233): one entry of a mapping at the second level. *)
Definition entry (sub : string * pyval -> run) (kv : string * pyval) : run :=
  match kv.2 with
  | PList items =>
      say_result (t ← join_items ", " items; Ok (bullet +:+ kv.1 +:+ ": " +:+ t))
  | PDict entries =>
      then_run (say (bullet +:+ kv.1 +:+ ":")) (for_each sub entries)
  | v => say (bullet +:+ kv.1 +:+ ": " +:+ str v)
  end.

(** Line 178 (223) *)
Definition heading (category : string) : string :=
  nl +:+ "   " +:+ replace "_" " " (upper category) +:+ ":".

(** Lines 177-191 (222-233), one turn of the outer loop. *)
Definition section (sub : string * pyval -> run) (kv : string * pyval) : run :=
  then_run (say (heading kv.1))
           match kv.2 with
           | PDict entries => for_each (entry sub) entries
           | _ => skip
           end.







End Report.

(** ** [archive/script_1 (2).py]: the other loops of the report *)

Module ReportLoops.
Import Py Report.

Definition discord_integration : pyval :=
  PDict [("file_size_limits",
      PDict [("free_users",
          PStr "25MB");
        ("nitro_classic",
          PStr "50MB");
        ("nitro",
          PStr "500MB (boosted servers)")]);
    ("supported_file_types",
      PList [PStr "JPEG";
        PStr "PNG";
        PStr "GIF";
        PStr "MP4";
        PStr "MOV";
        PStr "MP3";
        PStr "WAV";
        PStr "PDF";
        PStr "DOC";
        PStr "TXT"]);
    ("api_features",
      PDict [("slash_commands",
          PStr "Structured interactions");
        ("file_attachments",
          PStr "Direct file processing");
        ("message_threading",
          PStr "Context preservation");
        ("ephemeral_responses",
          PStr "Private interactions");
        ("rich_embeds",
          PStr "Enhanced formatting")]);
    ("multimodal_workflows",
      PList [PStr "Upload → Analyze → Respond";
        PStr "Voice commands in voice channels";
        PStr "Document Q&A sessions";
        PStr "Image description and analysis";
        PStr "Video content summarization"])].


Definition benefits : pyval :=
  PDict [("User Experience",
      PList [PStr "Natural interaction through multiple input types";
        PStr "Reduced typing for complex queries";
        PStr "Visual context understanding";
        PStr "Accessibility improvements"]);
    ("Functionality",
      PList [PStr "Rich content analysis capabilities";
        PStr "Cross-modal understanding";
        PStr "Complex problem solving";
        PStr "Educational and professional applications"]);
    ("Engagement",
      PList [PStr "Interactive multimedia conversations";
        PStr "Creative collaboration features";
        PStr "Real-time voice interactions";
        PStr "Personalized content responses"])].

Definition rate_strategies : list string :=
  [ "Queue system for concurrent requests";
    "Smart model selection based on content complexity";
    "Context caching for repeated queries";
    "User tier management (free vs premium)";
    "Request batching for multiple files";
    "Graceful degradation during peak usage" ].


(** [for x in v]: a list gives its items, a text its characters, a
    mapping its keys; a number cannot be iterated. *)
Definition iterate (v : pyval) : result (list pyval) :=
  match v with
  | PList items => Ok items
  | PStr s => Ok (map (fun c => PStr (String c EmptyString))
                      (list_ascii_of_string s))
  | PDict entries => Ok (map (fun kv => PStr kv.1) entries)
  | PInt _ => Raise TypeError
  end.



(** Lines 194-202, one turn: a section of the integration report. *)
Definition integration_section (kv : string * pyval) : run :=
  then_run (say (heading kv.1))
           match kv.2 with
           | PDict entries =>
               for_each (fun e => say (bullet +:+ e.1 +:+ ": " +:+ str e.2))
                        entries
           | PList items =>
               say_result (t ← join_items ", " items; Ok (bullet +:+ t))
           | v => say (bullet +:+ str v)
           end.

Definition print_integration (d : list (string * pyval)) : run :=
  for_each integration_section d.

(** [for i, x in enumerate(l, start)]: one line per item, with its
    number. *)
Fixpoint numbered (line : nat -> pyval -> string) (i : nat) (l : list pyval)
  : run :=
  match l with
  | [] => skip
  | x :: r => then_run (say (line i x)) (numbered line (S i) r)
  end.




(** Lines 267-268 *)
Definition strategy_line (i : nat) (strategy : pyval) : string :=
  "   " +:+ str_of_int (Z.of_nat i) +:+ ". " +:+ str strategy.

Definition print_strategies (l : list string) : run :=
  numbered strategy_line 1 (map PStr l).

(** Lines 292-295, one turn. *)
Definition benefit_section (kv : string * pyval) : run :=
  then_run (say (nl +:+ "   " +:+ upper kv.1 +:+ ":"))
           match iterate kv.2 with
           | Ok items => for_each (fun item => say (bullet +:+ str item)) items
           | Raise e => fail e
           end.

Definition print_benefits (d : list (string * pyval)) : run :=
  for_each benefit_section d.




End ReportLoops.

(** ** [archive/chart_script_1 (2).py]: the capability bar chart *)

Module CapabilityChart.
Import Py.

Definition data : list (string * list (string * Z)) :=
  [ ("Text Processing",
     [("Context Awareness", 9%Z);
      ("Conversation Threading", 8%Z);
      ("Multi-language Support", 9%Z);
      ("Intent Recognition", 8%Z);
      ("Semantic Understanding", 9%Z)]);
    ("Image Analysis",
     [("Object Detection", 9%Z);
      ("Visual Q&A", 10%Z);
      ("Content Moderation", 8%Z);
      ("Art Analysis", 7%Z);
      ("OCR Text Extraction", 9%Z);
      ("Image Segmentation", 8%Z)]);
    ("Audio Processing",
     [("Speech Transcription", 9%Z);
      ("Voice Commands", 8%Z);
      ("Real-time Interaction", 10%Z);
      ("Emotion Detection", 7%Z);
      ("Multi-language Audio", 8%Z)]);
    ("Video Understanding",
     [("Scene Analysis", 9%Z);
      ("Timestamp Queries", 8%Z);
      ("Content Summarization", 9%Z);
      ("Visual+Audio Understanding", 10%Z);
      ("Frame Extraction", 8%Z)]);
    ("Document Processing",
     [("PDF Analysis", 10%Z);
      ("Table Extraction", 9%Z);
      ("Multi-page Processing", 8%Z);
      ("Academic Q&A", 9%Z);
      ("Layout Understanding", 8%Z);
      ("Handwriting Recognition", 7%Z)]) ].

Definition colors : list (string * string) :=
  [ ("Text Processing", "#1FB8CD");
    ("Image Analysis", "#FFC185");
    ("Audio Processing", "#ECEBD5");
    ("Video Understanding", "#5D878F");
    ("Document Processing", "#D2BA4C") ].



(** One horizontal bar trace. *)
Record trace : Set := {
  trace_x : list Z;
  trace_y : list string;
  trace_name : string;
  marker_color : string;
  trace_text : list string
}.

(** [d[k]] on a dict *)
Definition lookup {V : Type} (k : string) (d : list (string * V)) : result V :=
  match Frame.assoc k d with
  | Some v => Ok v
  | None => Raise KeyError
  end.

(** Lines 101-104: the three lists of one modality, filled in step. *)
Fixpoint collect (names : list (string * string)) (caps : list (string * Z))
  : result (list string * list Z * list string) :=
  match caps with
  | [] => Ok ([], [], [])
  | (capability, score) :: rest =>
      short ← lookup capability names;
      r ← collect names rest;
      Ok (capability :: r.1.1, score :: r.1.2, short :: r.2)
  end.

(** Lines 95-119, one turn of the loop. *)
Definition modality_trace (table : list (string * list (string * Z)))
    (names palette : list (string * string)) (modality : string) : result trace :=
  caps ← lookup modality table;
  lists ← collect names caps;
  c ← lookup modality palette;
  Ok {| trace_x := lists.1.2;
        trace_y := lists.2;
        trace_name := modality;
        marker_color := c;
        trace_text := map str_of_int lists.1.2 |}.

(** Lines 94-119 *)
Definition traces (table : list (string * list (string * Z)))
    (names palette : list (string * string)) (order : list string)
  : result (list trace) :=
  mapM (modality_trace table names palette) order.

End CapabilityChart.

(** ** [archive/chart_script_1 (3).py]: the comparison table *)

Module ComparisonTable.
Import Py.

Definition user_groups : list string :=
  [ "Gaming Comm"; "Educational"; "Content Create"; "Professional" ].

Definition categories : list string :=
  [ "Demographics"; "Priority Feat"; "Interaction"; "AI Capabilities"; "Engagement" ].

Definition data_matrix : list (list string) :=
  [ ["16-34, 50-5k";
      "16-25, 20-500";
      "18-35, 100-10k";
      "25-45, 50-1k"];
    ["Real-time<br>XP/Leaderboard<br>Tournament";
      "Study tools<br>Quiz systems<br>Progress track";
      "Engage track<br>Content promo<br>Analytics";
      "Prof comm<br>Compliance<br>Productivity"];
    ["Fast, compet<br>casual";
      "Structured<br>supportive<br>formal";
      "Brand-focused<br>engaging<br>promotional";
      "Formal<br>business<br>efficient"];
    ["Game analysis<br>Strategy tips<br>Event auto";
      "Homework help<br>Study plan<br>Learn analytic";
      "Content optim<br>Audience insight<br>Growth strat";
      "Meeting summ<br>Task mgmt<br>Knowledge base"];
    ["Eve/weekends<br>voice-heavy";
      "Academic cal<br>text-focused";
      "Content rel<br>multi-modal";
      "Business hrs<br>structured"] ].

(** [[row[i] for row in matrix]] *)
Definition column (matrix : list (list string)) (i : nat) : result (list string) :=
  mapM (fun row => match row !! i with
                   | Some x => Ok x
                   | None => Raise IndexError
                   end) matrix.

(** Line 22: the header of the table. *)
Definition header (groups : list string) : list string :=
  "Category" :: groups.

(** Line 29: the columns of the table, the category names first. *)
Definition cells (groups cats : list string) (matrix : list (list string))
  : result (list (list string)) :=
  cols ← mapM (column matrix) (seq 0 (length groups));
  Ok (cats :: cols).

End ComparisonTable.

(** ** [docs/brainstorming_MCP/script.py]: the server guide *)

Module McpGuide.
Import Py Frame.

Definition mcp_servers_data : list (string * list record) :=
  [ ("Essential MCP Servers",
     [ [("Server Name", CStr "Discord MCP Server");
        ("Category", CStr "Communication");
        ("Priority", CStr "Critical");
        ("Key Features", CStr "Send/read messages, channel management, user roles, reactions, server info");
        ("Installation", CStr "npm i @modelcontextprotocol/server-discord");
        ("Configuration", CStr "Discord Bot Token required");
        ("Use Cases", CStr "Direct Discord bot control, automated moderation, server management")];
       [("Server Name", CStr "Memory MCP Server");
        ("Category", CStr "Intelligence");
        ("Priority", CStr "Critical");
        ("Key Features", CStr "Persistent memory, conversation context, user preferences, knowledge graphs");
        ("Installation", CStr "npx @modelcontextprotocol/server-memory");
        ("Configuration", CStr "Local storage or database connection");
        ("Use Cases", CStr "Remember user preferences, maintain conversation context, long-term learning")];
       [("Server Name", CStr "Web Search MCP (Brave)");
        ("Category", CStr "Information");
        ("Priority", CStr "High");
        ("Key Features", CStr "Real-time web search, privacy-focused, current information retrieval");
        ("Installation", CStr "npx @modelcontextprotocol/server-brave-search");
        ("Configuration", CStr "Brave Search API key");
        ("Use Cases", CStr "Answer current questions, fact-checking, research assistance")];
       [("Server Name", CStr "GitHub MCP Server");
        ("Category", CStr "Development");
        ("Priority", CStr "High");
        ("Key Features", CStr "Repository access, code search, issue management, PR handling");
        ("Installation", CStr "npx @modelcontextprotocol/server-github");
        ("Configuration", CStr "GitHub Personal Access Token");
        ("Use Cases", CStr "Code assistance, project management, developer workflow automation")];
       [("Server Name", CStr "File System MCP");
        ("Category", CStr "Data");
        ("Priority", CStr "High");
        ("Key Features", CStr "Read/write files, directory management, secure file operations");
        ("Installation", CStr "npx @modelcontextprotocol/server-filesystem");
        ("Configuration", CStr "Path restrictions for security");
        ("Use Cases", CStr "Document processing, file management, content generation")] ]);
    ("Database MCP Servers",
     [ [("Server Name", CStr "PostgreSQL MCP");
        ("Category", CStr "Database");
        ("Priority", CStr "Medium");
        ("Key Features", CStr "SQL queries, schema inspection, data analysis, read-only access");
        ("Installation", CStr "npx @modelcontextprotocol/server-postgres");
        ("Configuration", CStr "Database connection string");
        ("Use Cases", CStr "Data-driven responses, analytics, user data queries")];
       [("Server Name", CStr "SQLite MCP");
        ("Category", CStr "Database");
        ("Priority", CStr "Medium");
        ("Key Features", CStr "Local database, lightweight, embedded storage");
        ("Installation", CStr "npx @modelcontextprotocol/server-sqlite");
        ("Configuration", CStr "Database file path");
        ("Use Cases", CStr "Local data storage, user settings, bot configuration")];
       [("Server Name", CStr "Redis MCP");
        ("Category", CStr "Database");
        ("Priority", CStr "Medium");
        ("Key Features", CStr "Key-value storage, caching, session management");
        ("Installation", CStr "Custom implementation needed");
        ("Configuration", CStr "Redis connection details");
        ("Use Cases", CStr "Session management, caching, real-time features")] ]);
    ("Productivity MCP Servers",
     [ [("Server Name", CStr "Notion MCP");
        ("Category", CStr "Productivity");
        ("Priority", CStr "Medium");
        ("Key Features", CStr "Database management, page creation, content organization");
        ("Installation", CStr "Community server available");
        ("Configuration", CStr "Notion API integration token");
        ("Use Cases", CStr "Knowledge management, documentation, project tracking")];
       [("Server Name", CStr "Google Calendar MCP");
        ("Category", CStr "Productivity");
        ("Priority", CStr "Low");
        ("Key Features", CStr "Event management, scheduling, calendar integration");
        ("Installation", CStr "Community server available");
        ("Configuration", CStr "Google API credentials");
        ("Use Cases", CStr "Meeting scheduling, reminders, calendar queries")];
       [("Server Name", CStr "Slack MCP");
        ("Category", CStr "Communication");
        ("Priority", CStr "Low");
        ("Key Features", CStr "Cross-platform messaging, workspace integration");
        ("Installation", CStr "Community server available");
        ("Configuration", CStr "Slack bot token");
        ("Use Cases", CStr "Multi-platform communication, team notifications")] ]);
    ("AI Enhancement MCP Servers",
     [ [("Server Name", CStr "Perplexity MCP");
        ("Category", CStr "AI Search");
        ("Priority", CStr "High");
        ("Key Features", CStr "AI-powered research, real-time search, citations");
        ("Installation", CStr "Official server available");
        ("Configuration", CStr "Perplexity API key");
        ("Use Cases", CStr "Research assistance, fact-checking, current events")];
       [("Server Name", CStr "OpenAI Tools MCP");
        ("Category", CStr "AI Tools");
        ("Priority", CStr "Medium");
        ("Key Features", CStr "Image generation, text processing, multimodal AI");
        ("Installation", CStr "Community implementations");
        ("Configuration", CStr "OpenAI API key");
        ("Use Cases", CStr "Content creation, image generation, AI-powered responses")];
       [("Server Name", CStr "Hugging Face MCP");
        ("Category", CStr "AI Tools");
        ("Priority", CStr "Medium");
        ("Key Features", CStr "Model access, dataset interaction, AI pipeline integration");
        ("Installation", CStr "Official server available");
        ("Configuration", CStr "HF API token");
        ("Use Cases", CStr "Advanced AI capabilities, model experimentation")] ]) ].

(** [d[k] = v] on a dict: a key that is there keeps its place. *)
Fixpoint dict_set (k : string) (v : cell) (d : record) : record :=
  match d with
  | [] => [(k, v)]
  | (k', x) :: r =>
      if String.eqb k k' then (k, v) :: r else (k', x) :: dict_set k v r
  end.

(** The records are objects: the dataset and the list of all servers hold
    references to them.  A heap gives the record behind each reference. *)
Record state : Set := {
  heap : list record;
  all_servers : list nat
}.

(** Lines 146-147: [server['Section'] = category] writes into the record
    itself; [all_servers.append(server)] keeps the reference. *)
Definition add_server (category : string) (st : state) (server : nat) : state :=
  {| heap := alter (dict_set "Section" (CStr category)) server (heap st);
     all_servers := all_servers st ++ [server] |}.

(** Lines 144-147 *)
Definition flatten (dataset : list (string * list nat)) (st : state) : state :=
  fold_left (fun st section => fold_left (add_server section.1) section.2 st)
            dataset st.

(** The dataset as the literal builds it: every record a new object. *)
Fixpoint load (literal : list (string * list record)) (next : nat)
  : list record * list (string * list nat) :=
  match literal with
  | [] => ([], [])
  | (category, servers) :: rest =>
      let r := load rest (next + length servers) in
      (servers ++ r.1, (category, seq next (length servers)) :: r.2)
  end.

(** What the dataset reads as, given the heap. *)
Definition view (h : list record) (dataset : list (string * list nat))
  : list (string * list record) :=
  map (fun section => (section.1, omap (fun l => h !! l) section.2)) dataset.

Definition records_of (st : state) : list record :=
  omap (fun l => heap st !! l) (all_servers st).

(** Lines 143-149 on a literal: the state after the loop. *)
Definition run (literal : list (string * list record)) : state :=
  let loaded := load literal 0 in
  flatten loaded.2 {| heap := loaded.1; all_servers := [] |}.

(** Line 149 *)
Definition table (literal : list (string * list record)) : DataFrame :=
  from_records (records_of (run literal)).

(** [len(df[df['Priority'] == p])] *)
Definition priority_count (p : string) (df : DataFrame) : result nat :=
  rows ← rows_where "Priority" (CStr p) df;
  Ok (nrows rows).

End McpGuide.
(** * Properties *)

(** ** Sanity checks of the built-ins *)

Example int_16 : Py.int "16" = Py.Ok 16%Z. Proof. reflexivity. Qed.
Example int_spaces : Py.int " +1_000 " = Py.Ok 1000%Z. Proof. reflexivity. Qed.
Example int_bad : Py.int "1__0" = Py.Raise Py.ValueError. Proof. reflexivity. Qed.
Example int_neg : Py.int "-7" = Py.Ok (-7)%Z. Proof. reflexivity. Qed.
Example int_empty : Py.int "" = Py.Raise Py.ValueError. Proof. reflexivity. Qed.
Example int_separator :
  Py.int (String.append "16" (String (ascii_of_nat 28) EmptyString))
  = Py.Raise Py.ValueError.
Proof. reflexivity. Qed.
Example int_form_feed :
  Py.int (String.append "16" (String (ascii_of_nat 12) EmptyString)) = Py.Ok 16%Z.
Proof. reflexivity. Qed.
Example split_ex : Py.split "-"%char "16-34" = ["16"; "34"]. Proof. reflexivity. Qed.
Example split_neg : Py.split "-"%char "-5-10" = [""; "5"; "10"]. Proof. reflexivity. Qed.
Example replace_ex : Py.replace "Ages " "" "Ages 16-34" = "16-34". Proof. reflexivity. Qed.
Example replace_ov : Py.replace "aa" "b" "aaaaa" = "bba". Proof. reflexivity. Qed.
Example replace_emp : Py.replace "" "-" "abc" = "-a-b-c-". Proof. reflexivity. Qed.
Example strip_ex : Py.strip "  Discord  " = "Discord". Proof. reflexivity. Qed.
Example upper_ex : Py.upper "image_processing" = "IMAGE_PROCESSING". Proof. reflexivity. Qed.
Example str_ex : Py.str_of_int 3600 = "3600". Proof. reflexivity. Qed.

(** ** Strings *)

Section StringFacts.

Lemma str_app_cons (c : ascii) (a b : string) :
  String c a +:+ b = String c (a +:+ b).
Proof. reflexivity. Qed.

Lemma str_app_empty_l (b : string) : EmptyString +:+ b = b.
Proof. reflexivity. Qed.

Lemma str_length_app (a b : string) :
  String.length (a +:+ b) = String.length a + String.length b.
Proof.
  induction a as [|c a IH]; [reflexivity|].
  rewrite str_app_cons. simpl. now rewrite IH.
Qed.

Lemma slice_to_length (n : nat) (x : string) :
  String.length (Py.slice_to n x) = Nat.min n (String.length x).
Proof.
  revert x. induction n as [|n IH]; intros [|c x]; simpl; auto.
Qed.

Lemma slice_to_all (n : nat) (x : string) :
  String.length x <= n -> Py.slice_to n x = x.
Proof.
  revert x. induction n as [|n IH]; intros [|c x]; simpl; intros H;
    try reflexivity; try lia.
  f_equal. apply IH. lia.
Qed.

Lemma slice_to_app (n : nat) (a b : string) :
  String.length a = n -> Py.slice_to n (a +:+ b) = a.
Proof.
  revert a. induction n as [|n IH]; intros [|c a]; simpl; intros H;
    try discriminate.
  - now destruct b.
  - f_equal. apply IH. lia.
Qed.

End StringFacts.

(** ** Display labels *)

Section TruncationFacts.
Import Py Truncation.

Lemma truncate_le (n : nat) (x : string) :
  String.length (truncate n x) <= n.
Proof.
  unfold truncate. destruct (Nat.ltb_spec n (String.length x)).
  - rewrite slice_to_length. lia.
  - assumption.
Qed.

Lemma truncate_ellipsis_length (n : nat) (x : string) :
  String.length (truncate_ellipsis n x) =
  if n <? String.length x then n + 3 else String.length x.
Proof.
  unfold truncate_ellipsis. destruct (Nat.ltb_spec n (String.length x)).
  - rewrite str_length_app, slice_to_length. simpl. lia.
  - reflexivity.
Qed.

(** The lengths the two helpers give: the plain helper
    ([x[:n] if len(x) > n else x])
    never returns more than [n] characters, and so the server and group
    labels never exceed 15; the helper with the marker
    ([x[:n] + '...' if len(x) > n else x]) keeps the first [n] characters
    and then appends the three of the marker, so a shortened text has
    exactly [n + 3] characters and every result has at most [n + 3]. *)
Theorem truncation_length (n : nat) (x : string) :
  String.length (truncate n x) <= n /\
  String.length (McpChart.Server_Short x) <= 15 /\
  String.length (UserGroups.group_short x) <= 15 /\
  String.length (truncate_ellipsis n x) =
    (if n <? String.length x then n + 3 else String.length x) /\
  String.length (truncate_ellipsis n x) <= n + 3.
Proof.
  split; [apply truncate_le|].
  split; [apply truncate_le|].
  split; [apply (truncate_le 15)|].
  split; [apply truncate_ellipsis_length|].
  rewrite truncate_ellipsis_length.
  destruct (Nat.ltb_spec n (String.length x)); lia.
Qed.

(** C1 on the first record of the server table.  Its feature text has 72
    characters, and the label made from it has 53: the marker is appended
    to the first 50 characters, with no room kept for it, so the label is
    three characters over the limit of 50 that the line cuts at, and far
    over the 15 that the comment above the line gives.  The server label
    of the same record, cut by the line before, keeps its limit of 15. *)
Theorem features_short_exceeds_limit :
  String.length
    "Send messages, read history, manage channels, user management, reactions"
  = 72 /\
  String.length
    (McpChart.Features_Short
       "Send messages, read history, manage channels, user management, reactions")
  = 53 /\
  ~ String.length
      (McpChart.Features_Short
         "Send messages, read history, manage channels, user management, reactions")
    <= 50 /\
  String.length (McpChart.Server_Short "Discord MCP Server") <= 15.
Proof.
  split; [reflexivity|]. split; [reflexivity|].
  split; [vm_compute; lia|vm_compute; lia].
Qed.

(** C5: both helpers give back their own results unchanged. *)
Theorem truncation_idempotent (n : nat) (x : string) :
  truncate n (truncate n x) = truncate n x /\
  truncate_ellipsis n (truncate_ellipsis n x) = truncate_ellipsis n x.
Proof.
  split.
  - unfold truncate at 1.
    destruct (Nat.ltb_spec n (String.length (truncate n x))) as [H|H];
      [|reflexivity].
    pose proof (truncate_le n x). lia.
  - destruct (Nat.ltb_spec n (String.length x)) as [H|H].
    + assert (E : truncate_ellipsis n x = slice_to n x +:+ "...").
      { unfold truncate_ellipsis.
        now replace (n <? String.length x) with true
          by (symmetry; apply Nat.ltb_lt; lia). }
      assert (Hn : String.length (slice_to n x) = n)
        by (rewrite slice_to_length; lia).
      rewrite E. unfold truncate_ellipsis.
      rewrite str_length_app, Hn. simpl.
      replace (n <? n + 3) with true by (symmetry; apply Nat.ltb_lt; lia).
      now rewrite slice_to_app.
    + assert (E : truncate_ellipsis n x = x).
      { unfold truncate_ellipsis.
        now replace (n <? String.length x) with false
          by (symmetry; apply Nat.ltb_ge; lia). }
      now rewrite !E.
Qed.

End TruncationFacts.

(** ** Tables *)

Section FrameFacts.
Import Py Frame.

Lemma bind_Ok {A B : Type} (m : result A) (k : A -> result B) (b : B) :
  m ≫= k = Ok b -> exists a, m = Ok a /\ k a = Ok b.
Proof.
  destruct m as [a|e]; intros H.
  - exists a. split; [reflexivity|exact H].
  - discriminate H.
Qed.

Lemma assoc_set_col_ne (k k' : string) (vs : list cell) (df : DataFrame) :
  k <> k' -> assoc k (set_col k' vs df) = assoc k df.
Proof.
  intros Hne. induction df as [|[k0 v0] df IH]; simpl.
  - destruct (String.eqb_spec k k'); [contradiction|reflexivity].
  - destruct (String.eqb_spec k' k0) as [->|Hk]; simpl.
    + destruct (String.eqb_spec k k0); [contradiction|reflexivity].
    + destruct (String.eqb_spec k k0); [reflexivity|exact IH].
Qed.

(** On a table with rows an assignment that goes through has set the
    column and nothing else. *)
Lemma setitem_rows (k : string) (vs : list cell) (df df' : DataFrame) :
  0 < nrows df ->
  setitem k vs df = Ok df' ->
  df' = set_col k vs df /\ length vs = nrows df.
Proof.
  intros Hrows H. destruct df as [|c df]; [simpl in Hrows; lia|].
  unfold setitem in H.
  destruct (Nat.eqb_spec (length vs) (nrows (c :: df))) as [E|E].
  - injection H as <-. now split.
  - destruct (Nat.eqb_spec (nrows (c :: df)) 0) as [Z|Z]; [lia|discriminate].
Qed.

Lemma nrows_set_col (k : string) (vs : list cell) (df : DataFrame) :
  df <> [] -> length vs = nrows df -> nrows (set_col k vs df) = nrows df.
Proof.
  intros Hne E. destruct df as [|[k0 v0] df]; [contradiction|].
  simpl in *. now destruct (String.eqb k k0).
Qed.

(** Assigning one column leaves every other column as it was. *)
Lemma getitem_setitem_ne (k k' : string) (vs : list cell) (df df' : DataFrame) :
  0 < nrows df ->
  setitem k' vs df = Ok df' -> k <> k' -> getitem k df' = getitem k df.
Proof.
  intros Hrows H Hne. destruct (setitem_rows _ _ _ _ Hrows H) as [-> _].
  unfold getitem. now rewrite (assoc_set_col_ne k k' vs df Hne).
Qed.

(** The number of rows stays through an assignment, and with it the
    other columns. *)
Lemma setitem_keeps (n : nat) (k' : string) (vs : list cell)
    (df df' : DataFrame) :
  0 < n -> nrows df = n ->
  setitem k' vs df = Ok df' ->
  nrows df' = n /\
  forall k, k <> k' -> getitem k df' = getitem k df.
Proof.
  intros Hn E H. subst n.
  destruct (setitem_rows _ _ _ _ Hn H) as [-> Hlen]. split.
  - apply nrows_set_col; [|exact Hlen].
    intros ->. simpl in Hn. lia.
  - intros k Hne. unfold getitem. now rewrite (assoc_set_col_ne k k' vs df Hne).
Qed.

(** A table of records that has a column has a row for every record, and
    at least one. *)
Lemma from_records_rows (k : string) (recs : list record) (v : list cell) :
  getitem k (from_records recs) = Ok v ->
  0 < length recs /\ nrows (from_records recs) = length recs.
Proof.
  unfold from_records. intros H.
  destruct (record_keys recs) as [|k0 ks] eqn:E; [discriminate H|].
  cbn [map nrows]. rewrite length_map. split; [|reflexivity].
  destruct recs; [discriminate E|simpl; lia].
Qed.

End FrameFacts.

Section LabelFacts.
Import Py Frame.

Lemma mcp_columns_kept (recs : list record) (df : DataFrame) (k : string) :
  McpChart.prepare recs = Ok df ->
  k <> "Stars_Numeric" -> k <> "Server_Short" -> k <> "Features_Short" ->
  k <> "Use_Cases_Short" -> k <> "Complexity_Numeric" ->
  getitem k df = getitem k (from_records recs).
Proof.
  intros H ? ? ? ? ?. unfold McpChart.prepare in H.
  apply bind_Ok in H as (stars & Hs & H).
  destruct (from_records_rows _ _ _ Hs) as [Hn En].
  repeat (apply bind_Ok in H as (? & ? & H)).
  repeat
    match goal with
    | S : setitem ?k' ?vs ?d = Ok ?d', E : nrows ?d = length recs |- _ =>
        destruct (setitem_keeps _ k' vs d d' Hn E S) as [? ?]; clear S E
    end.
  repeat
    match goal with
    | K : forall k0, k0 <> _ -> getitem k0 ?d' = getitem k0 ?d
      |- getitem k ?d' = _ =>
        rewrite (K k) by assumption
    end.
  reflexivity.
Qed.

Lemma rpm_columns_kept (recs : list record) (df : DataFrame) (k : string) :
  RpmChart.prepare recs = Ok df ->
  k <> "Short_Model" ->
  getitem k df = getitem k (from_records recs).
Proof.
  intros H ?. unfold RpmChart.prepare in H.
  apply bind_Ok in H as (models & Hm & H).
  destruct (from_records_rows _ _ _ Hm) as [Hn En].
  repeat (apply bind_Ok in H as (? & ? & H)).
  rewrite <- En in Hn.
  now rewrite (getitem_setitem_ne k _ _ _ _ Hn H).
Qed.

(** On the scripts' records the label columns hold, row by row, what the
    label functions give for the name and text columns. *)
Lemma mcp_label_columns :
  exists df names feats uses,
    McpChart.prepare McpChart.data = Ok df /\
    getitem "Server Name" df = Ok (map CStr names) /\
    getitem "Key Features" df = Ok (map CStr feats) /\
    getitem "Best Use Cases" df = Ok (map CStr uses) /\
    getitem "Server_Short" df
    = Ok (map (fun x => CStr (McpChart.Server_Short x)) names) /\
    getitem "Features_Short" df
    = Ok (map (fun x => CStr (McpChart.Features_Short x)) feats) /\
    getitem "Use_Cases_Short" df
    = Ok (map (fun x => CStr (McpChart.Use_Cases_Short x)) uses).
Proof.
  eexists.
  exists (omap (fun r => match assoc "Server Name" r with
                         | Some (CStr s) => Some s
                         | _ => None
                         end) McpChart.data).
  exists (omap (fun r => match assoc "Key Features" r with
                         | Some (CStr s) => Some s
                         | _ => None
                         end) McpChart.data).
  exists (omap (fun r => match assoc "Best Use Cases" r with
                         | Some (CStr s) => Some s
                         | _ => None
                         end) McpChart.data).
  split; [vm_compute; reflexivity|].
  repeat split; vm_compute; reflexivity.
Qed.

Lemma rpm_label_column :
  exists df models,
    RpmChart.prepare RpmChart.data = Ok df /\
    getitem "Model" df = Ok (map CStr models) /\
    getitem "Short_Model" df
    = Ok (map (fun x => CStr (RpmChart.shorten x)) models).
Proof.
  eexists.
  exists (omap (fun r => match assoc "Model" r with
                         | Some (CStr s) => Some s
                         | _ => None
                         end) RpmChart.data).
  split; [vm_compute; reflexivity|].
  split; vm_compute; reflexivity.
Qed.

(** C9: the label columns are new columns.  Whatever records the two
    scripts start from, once the labels are in the table the name column
    ([Server Name], [Model]) and the two text columns read exactly as
    they did in the table built from the records; and on the scripts' own
    records the preparation does return. *)
Theorem labels_keep_source_columns :
  (forall recs df,
     McpChart.prepare recs = Ok df ->
     getitem "Server Name" df = getitem "Server Name" (from_records recs) /\
     getitem "Key Features" df = getitem "Key Features" (from_records recs) /\
     getitem "Best Use Cases" df = getitem "Best Use Cases" (from_records recs)) /\
  (forall recs df,
     RpmChart.prepare recs = Ok df ->
     getitem "Model" df = getitem "Model" (from_records recs)) /\
  (exists df, McpChart.prepare McpChart.data = Ok df) /\
  (exists df, RpmChart.prepare RpmChart.data = Ok df).
Proof.
  split; [|split; [|split]].
  - intros recs df H.
    repeat split; apply (mcp_columns_kept recs df _ H); discriminate.
  - intros recs df H. apply (rpm_columns_kept recs df _ H); discriminate.
  - eexists. vm_compute. reflexivity.
  - eexists. vm_compute. reflexivity.
Qed.

(** On the server table the labels differ from the names they come from,
    and the names are still there. *)
Lemma labels_keep_source_columns_witness :
  exists df,
    McpChart.prepare McpChart.data = Ok df /\
    getitem "Server Name" df
    = getitem "Server Name" (from_records McpChart.data) /\
    getitem "Server_Short" df <> getitem "Server Name" df.
Proof.
  eexists. split; [vm_compute; reflexivity|].
  split.
  - apply (proj1 labels_keep_source_columns McpChart.data).
    vm_compute. reflexivity.
  - vm_compute. discriminate.
Defined.

End LabelFacts.

(** ** The flow diagram *)

Section FlowFacts.
Import Py FlowChart.

Lemma connect_step_fold (l : list nat) (a : arrays) :
  sources (fold_left connect_step l a)
  = sources a ++ flat_map (fun i => [i; i + 5]) l /\
  targets (fold_left connect_step l a)
  = targets a ++ flat_map (fun i => [i + 5; i + 10]) l /\
  values (fold_left connect_step l a)
  = values a ++ flat_map (fun _ => [10; 10]) l /\
  labels (fold_left connect_step l a) = labels a.
Proof.
  revert a. induction l as [|i l IH]; intros a; simpl.
  - now rewrite !app_nil_r.
  - destruct (IH (connect_step a i)) as (-> & -> & -> & ->). simpl.
    now rewrite <- !app_assoc.
Qed.

(** A loop of [n] turns adds two links per turn. *)
Lemma connect_count (n : nat) (a : arrays) :
  length (sources (connect n a)) = length (sources a) + 2 * n /\
  length (targets (connect n a)) = length (targets a) + 2 * n /\
  length (values (connect n a)) = length (values a) + 2 * n.
Proof.
  unfold connect.
  destruct (connect_step_fold (seq 0 n) a) as (-> & -> & -> & _).
  rewrite !length_app.
  assert (E : forall (A : Type) (f : nat -> list A) (l : list nat),
             (forall i, length (f i) = 2) ->
             length (flat_map f l) = 2 * length l).
  { intros A f l Hf. induction l as [|i l IH]; simpl; [reflexivity|].
    rewrite length_app, Hf, IH. lia. }
  rewrite !E by reflexivity. rewrite length_seq. lia.
Qed.

(** The three label loops leave the link lists alone. *)
Lemma label_loop_links (step : arrays -> string -> arrays)
    (types : list string) (a : arrays) :
  (forall b t, sources (step b t) = sources b /\
               targets (step b t) = targets b /\
               values (step b t) = values b) ->
  sources (fold_left step types a) = sources a /\
  targets (fold_left step types a) = targets a /\
  values (fold_left step types a) = values a.
Proof.
  intros Hstep. revert a.
  induction types as [|t types IH]; intros a; simpl; [auto|].
  destruct (IH (step a t)) as (-> & -> & ->). apply Hstep.
Qed.

Lemma processing_step_links (b : arrays) (t : string) :
  sources (processing_step b t) = sources b /\
  targets (processing_step b t) = targets b /\
  values (processing_step b t) = values b.
Proof.
  unfold processing_step.
  repeat (destruct (String.eqb t _); [now repeat split|]).
  now repeat split.
Qed.

Lemma output_step_links (b : arrays) (t : string) :
  sources (output_step b t) = sources b /\
  targets (output_step b t) = targets b /\
  values (output_step b t) = values b.
Proof.
  unfold output_step.
  repeat (destruct (String.eqb t _); [now repeat split|]).
  now repeat split.
Qed.

(** Whatever the input types, the links are the ten of [range(5)]. *)
Lemma assemble_links (types : list string) :
  sources (assemble types) = [0; 5; 1; 6; 2; 7; 3; 8; 4; 9] /\
  targets (assemble types) = [5; 10; 6; 11; 7; 12; 8; 13; 9; 14].
Proof.
  unfold assemble, connect.
  destruct (connect_step_fold (seq 0 5)
              (fold_left output_step types
                 (fold_left processing_step types
                    (fold_left input_step types empty))))
    as (-> & -> & _ & _).
  destruct (label_loop_links output_step types
              (fold_left processing_step types
                 (fold_left input_step types empty)) output_step_links)
    as (-> & -> & _).
  destruct (label_loop_links processing_step types
              (fold_left input_step types empty) processing_step_links)
    as (-> & -> & _).
  destruct (label_loop_links input_step types empty) as (-> & -> & _).
  - intros b t. now repeat split.
  - split; reflexivity.
Qed.

Lemma build_total (types : list string) :
  exists nc,
    build types
    = Ok {| node_label := labels (assemble types);
            node_color := nc;
            link_source := sources (assemble types);
            link_target := targets (assemble types);
            link_value := values (assemble types);
            link_colors :=
              map link_color (seq 0 (length (sources (assemble types)))) |}.
Proof. eexists. reflexivity. Qed.

(** C2: with the script's three stages of five input types the label list
    has 15 entries, stage by stage, and there are 10 = 5 * (3 - 1) links
    (a loop of [n] turns adds [n * (3 - 1)]); turn [i] links position [i]
    of the inputs to position [i] of the processing nodes and that one to
    position [i] of the outputs; every end of a link is below 15. *)
Theorem flow_graph_shape :
  let a := assemble input_types in
  length (labels a) = 15 /\
  labels a
  = ["Text Input"; "Images Input"; "Audio Input"; "Video Input";
     "Documents Input"]
    ++ ["NLP Process"; "Vision Process"; "Audio Process"; "Video Process";
        "Doc Process"]
    ++ ["Smart Chat"; "Visual Bot"; "Voice Bot"; "Media Bot"; "Study Bot"] /\
  length (sources a) = 10 /\
  length (targets a) = 10 /\
  length (values a) = 10 /\
  length (sources a) = 5 * (3 - 1) /\
  (forall n b,
     length (sources (connect n b)) = length (sources b) + n * (3 - 1)) /\
  zip (sources a) (targets a)
  = flat_map (fun i => [(node 0 i, node 1 i); (node 1 i, node 2 i)]) (seq 0 5) /\
  Forall (fun i => 0 <= i < 15) (sources a ++ targets a).
Proof.
  repeat split; try reflexivity.
  - intros n b. destruct (connect_count n b) as (-> & _). lia.
  - vm_compute. repeat constructor.
Qed.

(** C4, as the code has it: the script checks nothing.  For every list of
    input types it returns, and the renderer is given the label and link
    lists exactly as they were assembled; the links fit the labels just
    when there are at least 15 labels, which holds for the script's own
    five types. *)
Theorem flow_run_hands_over_unchecked :
  (forall types,
     exists fig,
       run types = Rendered fig "multimodal_flow_chart.png" /\
       node_label fig = labels (assemble types) /\
       link_source fig = sources (assemble types) /\
       link_target fig = targets (assemble types) /\
       in_bounds fig = (15 <=? length (labels (assemble types)))) /\
  (exists fig,
     run input_types = Rendered fig "multimodal_flow_chart.png" /\
     in_bounds fig = true).
Proof.
  split.
  - intros types. destruct (build_total types) as (nc & E).
    eexists. unfold run. rewrite E. repeat split.
    unfold in_bounds. cbn [node_label link_source link_target].
    destruct (assemble_links types) as (-> & ->).
    set (n := length (labels (assemble types))). clearbody n.
    destruct (Nat.leb_spec 15 n) as [Hn|Hn].
    + apply forallb_forall. intros i Hi. apply Nat.ltb_lt.
      assert (i < 15); [|lia].
      simpl in Hi. intuition lia.
    + apply not_true_is_false. intros Hall.
      rewrite forallb_forall in Hall.
      specialize (Hall 14). rewrite Nat.ltb_lt in Hall.
      enough (14 < n) by lia. apply Hall. simpl. tauto.
  - eexists. split; [reflexivity|]. reflexivity.
Qed.

(** C4, as the specification words it, fails for the one-element list
    [["Text"]]: three labels are made, the links still run up to node 14,
    and the figure goes to the renderer all the same. *)
Lemma flow_run_renders_dangling_links :
  exists fig file,
    run ["Text"] = Rendered fig file /\
    length (node_label fig) = 3 /\
    links fig !! 1 = Some (5, 10) /\
    in_bounds fig = false.
Proof. do 2 eexists. repeat split. Qed.

End FlowFacts.

(** ** Splitting, stripping and replacing only take characters away *)

Section SubseqFacts.
Import Py.

Local Hint Constructors subseq : core.

Lemma subseq_refl (s : string) : subseq s s.
Proof. induction s; auto. Qed.

Lemma subseq_nil (s : string) : subseq EmptyString s.
Proof. induction s; auto. Qed.


Lemma subseq_trans (a b c : string) :
  subseq a b -> subseq b c -> subseq a c.
Proof.
  intros Hab Hbc. revert a Hab.
  induction Hbc as [|x t s _ IH|x t s _ IH]; intros a Hab; auto.
  inversion Hab; subst; auto.
Qed.

Lemma lstrip_subseq (s : string) : subseq (lstrip s) s.
Proof.
  induction s as [|c s IH]; simpl; auto.
  destruct (is_space c); auto using subseq_refl.
Qed.

Lemma rstrip_subseq (s : string) : subseq (rstrip s) s.
Proof.
  induction s as [|c s IH]; simpl; auto.
  destruct (rstrip s) eqn:E; auto.
  destruct (is_space c); auto.
Qed.

Lemma lstrip_by_subseq (p : ascii -> bool) (s : string) :
  subseq (lstrip_by p s) s.
Proof.
  induction s as [|c s IH]; simpl; [apply subseq_empty|].
  destruct (p c); [now apply subseq_skip|apply subseq_refl].
Qed.

Lemma rstrip_by_subseq (p : ascii -> bool) (s : string) :
  subseq (rstrip_by p s) s.
Proof.
  induction s as [|c s IH]; simpl; [apply subseq_empty|].
  destruct (rstrip_by p s) as [|d t].
  - destruct (p c); [now apply subseq_skip|now apply subseq_keep].
  - now apply subseq_keep.
Qed.

(** What [int] reads is a part of the text, and what it returns is what
    the digits of that part give. *)
Lemma int_literal (s : string) (z : Z) :
  int s = Ok z ->
  exists c r,
    subseq (String c r) s /\
    (if Ascii.eqb c "+"%char then int_digits 0 false r
     else if Ascii.eqb c "-"%char then Z.opp <$> int_digits 0 false r
     else int_digits 0 false (String c r)) = Some z.
Proof.
  unfold int.
  pose proof (subseq_trans _ _ _
                (rstrip_by_subseq is_int_space (lstrip_by is_int_space s))
                (lstrip_by_subseq is_int_space s)) as Hsub.
  destruct (rstrip_by is_int_space (lstrip_by is_int_space s)) as [|c r];
    [discriminate|].
  intros H. exists c, r. split; [exact Hsub|].
  destruct (if Ascii.eqb c "+"%char then int_digits 0 false r
            else if Ascii.eqb c "-"%char then Z.opp <$> int_digits 0 false r
            else int_digits 0 false (String c r)) as [y|]; [|discriminate].
  destruct (_ <=? _) in H; [|discriminate]. now injection H as ->.
Qed.

Lemma strip_subseq (s : string) : subseq (strip s) s.
Proof.
  unfold strip.
  eapply subseq_trans; [apply rstrip_subseq|apply lstrip_subseq].
Qed.



Lemma split_cons (sep : ascii) (s : string) :
  exists h t, split sep s = h :: t.
Proof.
  destruct s as [|c s]; simpl; [eauto|].
  destruct (Ascii.eqb c sep); [eauto|].
  destruct (split sep s); eauto.
Qed.

(** Splitting at a character and joining with it again gives the text
    back. *)
Lemma join_split (sep : ascii) (s : string) :
  join (String sep EmptyString) (split sep s) = s.
Proof.
  unfold join. induction s as [|c s IH]; [reflexivity|].
  destruct (split_cons sep s) as (h & t & E).
  cbn [split]. rewrite E in *.
  destruct (Ascii.eqb_spec c sep) as [->|Hne].
  - change (String.concat (String sep EmptyString) (EmptyString :: h :: t))
      with (String sep (String.concat (String sep EmptyString) (h :: t))).
    now rewrite IH.
  - destruct t as [|h2 t].
    + cbn in *. now rewrite IH.
    + change (String.concat (String sep EmptyString) (String c h :: h2 :: t))
        with (String c (String.concat (String sep EmptyString) (h :: h2 :: t))).
      now rewrite IH.
Qed.

End SubseqFacts.

(** ** Range parsing *)

Section RangeFacts.
Import Py UserGroups.









Lemma split_plain (sep : ascii) (a : string) :
  Report.has_char sep a = false -> split sep a = [a].
Proof.
  induction a as [|c a IH]; simpl; [reflexivity|].
  intros H. apply orb_false_elim in H as [Hc Ha].
  rewrite Hc, (IH Ha). reflexivity.
Qed.

Lemma split_at (sep : ascii) (a b : string) :
  Report.has_char sep a = false ->
  split sep (a +:+ String sep b) = a :: split sep b.
Proof.
  induction a as [|c a IH]; intros H.
  - rewrite str_app_empty_l. simpl. now rewrite Ascii.eqb_refl.
  - simpl in H. apply orb_false_elim in H as [Hc Ha].
    rewrite str_app_cons. cbn [split]. rewrite Hc, (IH Ha). reflexivity.
Qed.

(** No piece of a split text holds the separator. *)
Lemma split_pieces (sep : ascii) (s : string) :
  Forall (fun p => Report.has_char sep p = false) (split sep s).
Proof.
  induction s as [|c s IH]; simpl; [repeat constructor|].
  destruct (Ascii.eqb c sep) eqn:E; [constructor; [reflexivity|exact IH]|].
  destruct (split sep s) as [|h t]; [repeat constructor; simpl; now rewrite E|].
  inversion IH; subst. constructor; [|assumption].
  simpl. rewrite E. assumption.
Qed.

Lemma has_char_subseq (c : ascii) (t s : string) :
  subseq t s -> Report.has_char c t = true -> Report.has_char c s = true.
Proof.
  induction 1 as [|x t s _ IH|x t s _ IH]; simpl; intros H; auto.
  - rewrite (IH H). apply orb_true_r.
  - apply orb_true_iff in H as [H|H]; [now rewrite H|].
    rewrite (IH H). apply orb_true_r.
Qed.

Lemma int_digits_nonneg (s : string) (acc : Z) (after : bool) (z : Z) :
  (0 <= acc)%Z -> int_digits acc after s = Some z -> (0 <= z)%Z.
Proof.
  revert acc after. induction s as [|c s IH]; intros acc after Hacc H;
    simpl in H.
  - destruct after; [now injection H as <-|discriminate].
  - destruct (digit_val c) as [d|] eqn:D.
    + refine (IH _ _ _ H).
      unfold digit_val in D.
      destruct ((48 <=? nat_of_ascii c) && (nat_of_ascii c <=? 57));
        [injection D as <-; lia|discriminate].
    + destruct (Ascii.eqb c "_"%char && after); [|discriminate].
      now apply (IH _ _ Hacc H).
Qed.

(** Without a hyphen in the text, [int] cannot return a negative
    number. *)
Lemma int_nonneg (a : string) (z : Z) :
  Report.has_char "-"%char a = false -> int a = Ok z -> (0 <= z)%Z.
Proof.
  intros Ha H. apply int_literal in H as (c & r & Hsub & H).
  assert (Hc : Ascii.eqb c "-"%char = false).
  { destruct (Ascii.eqb c "-"%char) eqn:Hc; [|reflexivity].
    assert (Report.has_char "-"%char (String c r) = true)
      by (simpl; now rewrite Hc).
    rewrite (has_char_subseq _ _ _ Hsub) in Ha; [discriminate|].
    assumption. }
  rewrite Hc in H.
  destruct (Ascii.eqb c "+"%char).
  - now apply (int_digits_nonneg r 0%Z false).
  - now apply (int_digits_nonneg (String c r) 0%Z false).
Qed.

(** [int_pair] returns exactly on a text with one hyphen and an integer
    on either side. *)
Lemma int_pair_returns (s : string) (lo hi : Z) :
  int_pair s = Ok (lo, hi) <->
  exists a b,
    s = a +:+ "-" +:+ b /\
    Report.has_char "-"%char a = false /\
    Report.has_char "-"%char b = false /\
    int a = Ok lo /\ int b = Ok hi.
Proof.
  split.
  - unfold int_pair. intros H.
    pose proof (join_split "-"%char s) as J.
    pose proof (split_pieces "-"%char s) as P.
    destruct (split "-"%char s) as [|a [|b [|c l]]]; try discriminate.
    apply bind_Ok in H as (x & Ha & H).
    apply bind_Ok in H as (y & Hb & H).
    injection H as <- <-.
    inversion P as [|? ? Pa P']; subst. inversion P' as [|? ? Pb _]; subst.
    exists a, b. repeat split; auto.
  - intros (a & b & -> & Ha & Hb & Hlo & Hhi).
    unfold int_pair. change (a +:+ "-" +:+ b) with (a +:+ String "-"%char b).
    rewrite (split_at _ a b Ha), (split_plain _ b Hb).
    cbn. rewrite Hlo. cbn. rewrite Hhi. reflexivity.
Qed.












End RangeFacts.

(** ** Colours *)

Section ColorFacts.
Import Py Frame.

(** From any list of colours so far, the loop adds one colour per status,
    in order. *)
Lemma color_loop (statuses : list cell) (colors : list string) :
  fold_left RpmChart.color_step statuses colors
  = colors ++ map RpmChart.status_color statuses.
Proof.
  revert colors. induction statuses as [|s statuses IH]; intros colors; simpl.
  - now rewrite app_nil_r.
  - rewrite IH. unfold RpmChart.color_step. now rewrite <- app_assoc.
Qed.

Lemma status_colors_map (statuses : list cell) :
  RpmChart.status_colors statuses = map RpmChart.status_color statuses.
Proof. apply (color_loop statuses []). Qed.

Lemma trace_loop (df : DataFrame) (cats : list string) :
  forall (acc : result (list TpmChart.trace)) ts,
    fold_left (TpmChart.trace_step df) cats acc = Ok ts ->
    (forall done, acc = Ok done -> Forall TpmChart.trace_ok done) ->
    Forall TpmChart.trace_ok ts.
Proof.
  induction cats as [|c cats IH]; intros acc ts H Hacc; simpl in H.
  - now apply Hacc.
  - apply (IH _ _ H). intros done Hdone.
    unfold TpmChart.trace_step in Hdone.
    apply bind_Ok in Hdone as (before & Hbefore & Hdone).
    apply bind_Ok in Hdone as (status_data & _ & Hdone).
    destruct (nrows status_data =? 0).
    + injection Hdone as <-. now apply Hacc.
    + apply bind_Ok in Hdone as (y & _ & Hdone).
      apply bind_Ok in Hdone as (x & _ & Hdone).
      apply bind_Ok in Hdone as (col & Hcol & Hdone).
      injection Hdone as <-. apply Forall_app. split; [now apply Hacc|].
      constructor; [|constructor].
      unfold TpmChart.trace_ok, TpmChart.color_of in *. cbn.
      destruct (TpmChart.color_map !! c); [now injection Hcol as ->|discriminate].
Qed.

(** C6: the status loop gives every row one colour, which depends on the
    row's status alone, so each status in the list has exactly one colour
    and the loop, from whatever colours it starts with, adds the same
    ones for the same list.  The fixed table has exactly one colour for
    each of its three statuses; these cover every status of the dataset,
    and whatever traces are built from a set of records carry the colour
    the table holds for their status; from the script's records the three
    traces are built. *)
Theorem color_assignment :
  (forall statuses : list cell,
     length (RpmChart.status_colors statuses) = length statuses) /\
  (forall (statuses : list cell) (s : cell),
     s ∈ statuses -> exists! c, RpmChart.assigned statuses s c) /\
  (forall (statuses : list cell) (before : list string),
     fold_left RpmChart.color_step statuses before
     = before ++ RpmChart.status_colors statuses) /\
  Forall (fun s => exists! c, TpmChart.color_map !! s = Some c)
         TpmChart.statuses /\
  Forall (fun r => exists s, assoc "Status" r = Some (CStr s) /\
                             s ∈ TpmChart.statuses)
         TpmChart.data /\
  (forall (recs : list record) ts,
     TpmChart.traces recs = Ok ts ->
     Forall (fun t => TpmChart.color_map !! TpmChart.trace_name t
                      = Some (TpmChart.marker_color t)) ts) /\
  map (fun t => (TpmChart.trace_name t, TpmChart.marker_color t))
      (match TpmChart.traces TpmChart.data with Ok ts => ts | Raise _ => [] end)
  = [("Current", "#1FB8CD"); ("Deprecated", "#B4413C"); ("Limited", "#D2BA4C")].
Proof.
  repeat match goal with |- _ /\ _ => split end.
  - intros statuses. now rewrite status_colors_map, length_map.
  - intros statuses s Hs. exists (RpmChart.status_color s). split.
    + apply list_elem_of_lookup in Hs as [i Hi]. exists i. split; [exact Hi|].
      rewrite status_colors_map, list_lookup_fmap. now rewrite Hi.
    + intros c (j & Hj & Hc).
      rewrite status_colors_map, list_lookup_fmap, Hj in Hc.
      now injection Hc.
  - intros statuses before. now rewrite status_colors_map, color_loop.
  - repeat constructor; (eexists; split; [reflexivity|]);
      intros c Hc; vm_compute in Hc; now injection Hc.
  - repeat constructor; eexists; (split; [reflexivity|]);
      unfold TpmChart.statuses; set_solver.
  - intros recs ts H. apply (trace_loop _ _ _ _ H).
    intros done [= <-]. constructor.
  - reflexivity.
Qed.

(** The statuses of the requests-per-minute table, row by row. *)
Lemma color_assignment_witness :
  CStr "Deprecated"
    ∈ map (fun r => default CNaN (assoc "Status" r)) RpmChart.data /\
  exists! c,
    RpmChart.assigned
      (map (fun r => default CNaN (assoc "Status" r)) RpmChart.data)
      (CStr "Deprecated") c.
Proof.
  assert (H : CStr "Deprecated"
                ∈ map (fun r => default CNaN (assoc "Status" r)) RpmChart.data).
  { apply list_elem_of_lookup. exists 4. reflexivity. }
  split; [exact H|].
  exact (proj1 (proj2 color_assignment) _ _ H).
Defined.

End ColorFacts.

(** ** CSV text *)

Section CsvFacts.
Import Py Frame Csv.





















(** C10: the two column mappings the feature script turns into tables are
    rectangular: [data] has its five columns of 8 entries each,
    [summary_stats] seven of 4.  Building a table succeeds exactly on a
    rectangular mapping; [feature_data], with columns of 32, 17 and 17
    entries, would be refused, and it is neither built into a table nor
    written. *)
Theorem exported_tables_rectangular :
  map (fun col => (col.1, length col.2)) FeatureTable.data
  = [("Feature Category", 8); ("Gaming Communities", 8);
     ("Educational Groups", 8); ("Content Creators", 8);
     ("Professional Communities", 8)] /\
  rectangular FeatureTable.data = true /\
  rectangular FeatureTable.summary_stats = true /\
  (forall cols, rectangular cols = true <-> from_columns cols = Ok cols) /\
  (forall cols, rectangular cols = false <-> from_columns cols = Raise ValueError) /\
  map (fun col => length col.2) FeatureTable.feature_data = [32; 17; 17] /\
  from_columns FeatureTable.feature_data = Raise ValueError /\
  (exists e,
     FeatureTable.run = Ok e /\
     tables_built e = [FeatureTable.data; FeatureTable.summary_stats] /\
     Forall (fun cols => rectangular cols = true) (tables_built e) /\
     (FeatureTable.feature_data ∉ tables_built e) /\
     map fst (files_written e)
     = ["discord_bot_feature_customization.csv";
        "discord_user_group_demographics.csv"]).
Proof.
  repeat match goal with |- _ /\ _ => split end; try reflexivity.
  - intros cols. unfold from_columns.
    destruct (rectangular cols); split; intros H; (reflexivity || discriminate H).
  - intros cols. unfold from_columns.
    destruct (rectangular cols); split; intros H; (reflexivity || discriminate H).
  - eexists. split; [reflexivity|]. cbn [tables_built files_written].
    repeat split.
    + repeat constructor.
    + rewrite !elem_of_cons, elem_of_nil.
      intros [H|[H|[]]]; discriminate H.
Qed.

End CsvFacts.

(** ** The capability report *)

Section ReportFacts.
Import Py Report.






End ReportFacts.

(** * Further properties of the scripts *)

(** ** Labels *)

Section MoreLabelFacts.
Import Py Truncation.

Lemma slice_to_subseq (n : nat) (x : string) : subseq (slice_to n x) x.
Proof.
  revert x. induction n as [|n IH]; intros [|c x]; simpl;
    auto using subseq_nil, subseq_empty, subseq_keep.
Qed.

Lemma subseq_app (a b c d : string) :
  subseq a b -> subseq c d -> subseq (a +:+ c) (b +:+ d).
Proof.
  intros Hab Hcd. induction Hab as [|x a b _ IH|x a b _ IH].
  - exact Hcd.
  - rewrite str_app_cons. now apply subseq_skip.
  - rewrite !str_app_cons. now apply subseq_keep.
Qed.

Lemma prefix_app (a s : string) :
  String.prefix a s = true -> exists rest, s = a +:+ rest.
Proof.
  revert s. induction a as [|c a IH]; intros s H.
  - now exists s.
  - destruct s as [|x s]; [discriminate|]. simpl in H.
    destruct (ascii_dec c x) as [->|]; [|discriminate].
    destruct (IH s H) as [rest ->]. now exists rest.
Qed.

(** Skipping the rest of a match. *)
Lemma replace_skip (old new p rest : string) :
  replace_from old new (String.length p) (p +:+ rest)
  = replace_from old new 0 rest.
Proof.
  induction p as [|c p IH]; [reflexivity|].
  rewrite str_app_cons. simpl. exact IH.
Qed.

Lemma replace_from_subseq (old new : string) :
  subseq new old ->
  forall n s skip,
    String.length s <= n -> subseq (replace_from old new skip s) s.
Proof.
  intros Hnew. induction n as [|n IH]; intros [|c s] skip Hn;
    try apply subseq_empty; simpl in Hn; [lia|].
  destruct skip as [|k]; cbn [replace_from].
  - destruct (String.prefix old (String c s)) eqn:Hp.
    + destruct old as [|c' old].
      * inversion Hnew; subst. rewrite str_app_empty_l.
        apply subseq_skip, IH. lia.
      * apply prefix_app in Hp as [rest Hrest].
        rewrite str_app_cons in Hrest. injection Hrest as <- ->.
        replace (String.length (String c old) - 1) with (String.length old)
          by (simpl; lia).
        rewrite replace_skip.
        change (String c (old +:+ rest)) with (String c old +:+ rest).
        apply subseq_app; [exact Hnew|].
        apply IH. rewrite str_length_app in Hn. lia.
    + apply subseq_keep, IH. lia.
  - apply subseq_skip, IH. lia.
Qed.

(** Replacing a word by some of its own letters leaves letters of the
    text, in their order. *)
Lemma replace_subseq (old new s : string) :
  old <> EmptyString -> subseq new old -> subseq (replace old new s) s.
Proof.
  intros Hold Hnew. destruct old as [|c old]; [contradiction|].
  cbn [replace]. now apply (replace_from_subseq _ _ Hnew (String.length s)).
Qed.

Lemma truncate_slice (n : nat) (x : string) : truncate n x = slice_to n x.
Proof.
  unfold truncate. destruct (Nat.ltb_spec n (String.length x));
    [reflexivity|]. symmetry. now apply slice_to_all.
Qed.

(** The short labels are made of letters of the full name, in their order:
    the abbreviations only take letters away (["Educational"] becomes
    ["Edu"], ["Gemini "] becomes ["G"]), and so do stripping and cutting. *)
Theorem labels_are_made_of_the_name (x : string) :
  subseq (McpChart.Server_Short x) x /\
  subseq (UserGroups.group_short x) x /\
  subseq (RpmChart.shorten x) x /\
  (forall n, subseq (truncate n x) x).
Proof.
  assert (T : forall n y, subseq (truncate n y) y)
    by (intros n y; rewrite truncate_slice; apply slice_to_subseq).
  repeat split.
  - unfold McpChart.Server_Short, McpChart.abbreviate.
    eapply subseq_trans; [apply T|].
    eapply subseq_trans; [apply strip_subseq|].
    eapply subseq_trans; (apply replace_subseq; [discriminate|apply subseq_nil]).
  - unfold UserGroups.group_short.
    eapply subseq_trans; [apply (T 15)|].
    eapply subseq_trans; [apply strip_subseq|].
    eapply subseq_trans; [apply replace_subseq; [discriminate|letters_kept]|].
    eapply subseq_trans; [apply replace_subseq; [discriminate|letters_kept]|].
    apply replace_subseq; [discriminate|apply subseq_nil].
  - unfold RpmChart.shorten.
    eapply subseq_trans; [apply replace_subseq; [discriminate|apply subseq_nil]|].
    eapply subseq_trans; [apply replace_subseq; [discriminate|letters_kept]|].
    eapply subseq_trans; [apply replace_subseq; [discriminate|letters_kept]|].
    eapply subseq_trans; [apply replace_subseq; [discriminate|letters_kept]|].
    apply replace_subseq; [discriminate|letters_kept].
  - intros n. apply T.
Qed.

End MoreLabelFacts.

Section MoreTruncationFacts.
Import Py Truncation.

(** The texts both helpers leave alone.  The plain one is just [x[:n]]
    and returns exactly the texts within the limit; the one with the marker
    also returns unchanged a longer text that already reads "first [n]
    characters, then the marker". *)
Theorem truncation_fixed_points (n : nat) (x : string) :
  truncate n x = slice_to n x /\
  (truncate n x = x <-> String.length x <= n) /\
  (truncate_ellipsis n x = x <->
   String.length x <= n \/ x = slice_to n x +:+ "...").
Proof.
  split; [apply truncate_slice|]. split; split.
  - intros H. rewrite <- H. apply truncate_le.
  - intros H. rewrite truncate_slice. now apply slice_to_all.
  - unfold truncate_ellipsis.
    destruct (Nat.ltb_spec n (String.length x)); [now right|now left].
  - unfold truncate_ellipsis.
    destruct (Nat.ltb_spec n (String.length x)) as [Hlt|Hle]; [|reflexivity].
    intros [H|H]; [lia|now symmetry].
Qed.

Lemma lstrip_head (s : string) :
  lstrip s = s <->
  match s with
  | EmptyString => True
  | String c _ => is_space c = false
  end.
Proof.
  destruct s as [|c s]; simpl; [tauto|].
  destruct (is_space c) eqn:E; [|tauto].
  split; [|discriminate]. intros H.
  assert (L : forall t, String.length (lstrip t) <= String.length t).
  { induction t as [|d t IH]; simpl; [lia|].
    destruct (is_space d); simpl; lia. }
  specialize (L s). rewrite H in L. simpl in L. lia.
Qed.

Lemma lstrip_twice (s : string) : lstrip (lstrip s) = lstrip s.
Proof.
  induction s as [|c s IH]; simpl; [reflexivity|].
  destruct (is_space c) eqn:E; [exact IH|]. simpl. now rewrite E.
Qed.

Lemma rstrip_keeps_head (s : string) :
  lstrip s = s -> lstrip (rstrip s) = rstrip s.
Proof.
  intros H. apply lstrip_head in H. apply lstrip_head.
  destruct s as [|c s]; simpl; [exact I|].
  destruct (rstrip s); [now rewrite H|exact H].
Qed.

Lemma slice_keeps_head (n : nat) (s : string) :
  lstrip s = s -> lstrip (slice_to n s) = slice_to n s.
Proof.
  intros H. apply lstrip_head in H. apply lstrip_head.
  destruct n, s; simpl; auto.
Qed.

(** A short label never begins with white space: the name is stripped
    before it is cut.  It can end with white space, when the cut falls
    just behind a blank. *)
Theorem labels_begin_clean :
  (forall x, lstrip (McpChart.Server_Short x) = McpChart.Server_Short x) /\
  (forall x, lstrip (UserGroups.group_short x) = UserGroups.group_short x) /\
  rstrip (McpChart.Server_Short "Knowledge Base Tools MCP")
  <> McpChart.Server_Short "Knowledge Base Tools MCP".
Proof.
  assert (S : forall y, lstrip (strip y) = strip y).
  { intros y. unfold strip. apply rstrip_keeps_head, lstrip_twice. }
  repeat split.
  - intros x. unfold McpChart.Server_Short. rewrite truncate_slice.
    apply slice_keeps_head, S.
  - intros x. unfold UserGroups.group_short.
    change (lstrip (truncate 15 (strip (replace "Professional" "Prof"
              (replace "Educational" "Edu" (replace "Communities" "" x)))))
            = truncate 15 (strip (replace "Professional" "Prof"
              (replace "Educational" "Edu" (replace "Communities" "" x))))).
    rewrite truncate_slice. apply slice_keeps_head, S.
  - vm_compute. discriminate.
Qed.

End MoreTruncationFacts.

(** ** Ranges *)

Section MoreRangeFacts.
Import Py UserGroups.

(** Reading a pair from an ASCII text returns exactly on a text [a-b]
    with one hyphen and, on either side, a text that [int] accepts, and
    gives the two integers; so the bounds it returns are never negative,
    and a range with a negative bound, which has a second hyphen, is
    refused.  What [int] accepts is pinned at its edges: blanks around the
    digits and an underscore between them are taken, a separator U+001C
    after the digits is not, and neither is a literal of 4301 digits. *)
Theorem int_pair_exact (s : string) (lo hi : Z) :
  is_ascii s = true ->
  (int_pair s = Ok (lo, hi) <->
   exists a b,
     s = a +:+ "-" +:+ b /\
     Report.has_char "-"%char a = false /\
     Report.has_char "-"%char b = false /\
     int a = Ok lo /\ int b = Ok hi) /\
  (int_pair s = Ok (lo, hi) -> (0 <= lo)%Z /\ (0 <= hi)%Z) /\
  int_pair "-5-10" = Raise ValueError /\
  int_pair " 1_6 - 34 " = Ok (16, 34)%Z /\
  int_pair ("16" +:+ String (ascii_of_nat 28) "-34") = Raise ValueError /\
  int (String.concat "" (repeat "1" 4300)) <> Raise ValueError /\
  int (String.concat "" (repeat "1" 4301)) = Raise ValueError.
Proof.
  intros _. split; [apply int_pair_returns|split].
  - intros H.
    apply int_pair_returns in H as (a & b & _ & Ha & Hb & Hlo & Hhi).
    split; [now apply (int_nonneg a)|now apply (int_nonneg b)].
  - split; [reflexivity|]. split; [reflexivity|]. split; [reflexivity|].
    split; [vm_compute; discriminate|vm_compute; reflexivity].
Qed.

(** The age range of the first record. *)
Lemma int_pair_exact_witness :
  is_ascii "16-34" = true /\
  int_pair "16-34" = Ok (16, 34)%Z /\ (0 <= 16)%Z /\ (0 <= 34)%Z.
Proof.
  split; [reflexivity|]. split; [reflexivity|].
  apply (proj1 (proj2 (int_pair_exact "16-34" 16 34 eq_refl))). reflexivity.
Defined.

End MoreRangeFacts.

Section MoreRowFacts.
Import Py UserGroups.
Context {F : Type} (log10 : Q -> F).

Lemma process_from_rows (gs : list group) :
  forall i rows,
    process_from log10 i gs = Ok rows ->
    length rows = length gs /\
    map full_group rows = map user_group gs /\
    map row_group rows = map (fun g => group_short (user_group g)) gs /\
    map priority_features_count rows
    = map (fun g => length (priority_features g)) gs /\
    map ai_capabilities_count rows
    = map (fun g => length (ai_capabilities g)) gs /\
    map color rows = take (length gs) (drop i colors) /\
    (gs = [] \/ i + length gs <= length colors).
Proof.
  induction gs as [|g gs IH]; intros i rows H; simpl in H.
  - injection H as <-. repeat split; auto.
  - apply bind_Ok in H as (row & Hrow & H).
    apply bind_Ok in H as (rest & Hrest & H). injection H as <-.
    destruct (IH _ _ Hrest) as (Hl & Hf & Hg & Hp & Ha & Hc & Hb).
    unfold process in Hrow.
    apply bind_Ok in Hrow as (age & _ & Hrow).
    apply bind_Ok in Hrow as (members & _ & Hrow).
    apply bind_Ok in Hrow as (c & Hcol & Hrow). injection Hrow as <-.
    destruct (colors !! i) as [c'|] eqn:Hi; [|discriminate].
    injection Hcol as ->.
    cbn [map length full_group row_group priority_features_count
           ai_capabilities_count color].
    rewrite Hl, Hf, Hg, Hp, Ha, Hc.
    repeat split; auto.
    + rewrite (drop_S _ _ _ Hi). reflexivity.
    + right. apply lookup_lt_Some in Hi.
      destruct Hb as [->|Hb]; simpl in *; lia.
Qed.

(** What the loop over the groups returns.  When it returns there is one
    row per group, in order, with the group's full name, its short label,
    the two feature counts, and the colour of its position; and there are
    at most four groups, since the colour list has four entries and is
    indexed by position. *)
Theorem chart_rows (gs : list group) (rows : list (chart_row (F := F))) :
  chart_data log10 gs = Ok rows ->
  length rows = length gs /\
  length gs <= 4 /\
  map full_group rows = map user_group gs /\
  map row_group rows = map (fun g => group_short (user_group g)) gs /\
  map priority_features_count rows
  = map (fun g => length (priority_features g)) gs /\
  map ai_capabilities_count rows
  = map (fun g => length (ai_capabilities g)) gs /\
  map color rows = take (length gs) colors.
Proof.
  intros H. destruct (process_from_rows gs 0 rows H)
    as (Hl & Hf & Hg & Hp & Ha & Hc & Hb).
  repeat split; auto.
  destruct Hb as [->|Hb]; simpl in *; lia.
Qed.

(** With a fifth group, here the first one once more, the loop stops at
    the colour. *)
Lemma fifth_group_stops :
  chart_data log10 (data ++ take 1 data) = Raise IndexError.
Proof. reflexivity. Qed.

End MoreRowFacts.

(** The four groups of the script. *)
Lemma chart_rows_witness :
  exists rows : list (UserGroups.chart_row (F := Q)),
    UserGroups.chart_data (fun q => q) UserGroups.data = Py.Ok rows /\
    length rows = 4 /\
    map UserGroups.row_group rows = ["Gaming"; "Edu Groups"; "Content Creator"; "Prof"].
Proof.
  eexists. split; [reflexivity|].
  destruct (chart_rows (fun q => q) UserGroups.data _ eq_refl)
    as (Hl & _ & _ & Hg & _).
  split; [exact Hl|exact Hg].
Defined.


(** ** The flow diagram *)

Section MoreFlowFacts.
Import Py FlowChart.

Lemma input_labels (types : list string) (a : arrays) :
  labels (fold_left input_step types a)
  = labels a ++ map (fun t => t +:+ " Input") types.
Proof.
  revert a. induction types as [|t types IH]; intros a; simpl.
  - now rewrite app_nil_r.
  - rewrite IH. simpl. now rewrite <- app_assoc.
Qed.

(** A loop that adds a label for the five known types only. *)
Lemma known_labels (step : arrays -> string -> arrays) (types : list string) :
  (forall a t,
     (t ∈ input_types /\ exists l, labels (step a t) = labels a ++ [l]) \/
     ((t ∉ input_types) /\ labels (step a t) = labels a)) ->
  forall a,
    exists extra,
      labels (fold_left step types a) = labels a ++ extra /\
      length extra = length (filter (.∈ input_types) types).
Proof.
  intros Hstep. induction types as [|t types IH]; intros a; simpl.
  - exists []. now rewrite app_nil_r.
  - destruct (IH (step a t)) as (extra & -> & Hlen).
    destruct (Hstep a t) as [[Hin [l ->]]|[Hout ->]].
    + exists (l :: extra). rewrite <- app_assoc. split; [reflexivity|].
      rewrite filter_cons_True by exact Hin. simpl. now rewrite Hlen.
    + exists extra. split; [reflexivity|].
      now rewrite filter_cons_False by exact Hout.
Qed.

Lemma unknown_type (t : string) :
  t <> "Text" -> t <> "Images" -> t <> "Audio" -> t <> "Video" ->
  t <> "Documents" -> t ∉ input_types.
Proof.
  intros. unfold input_types. rewrite !not_elem_of_cons.
  repeat split; auto. apply not_elem_of_nil.
Qed.

Lemma processing_known (a : arrays) (t : string) :
  (t ∈ input_types /\ exists l, labels (processing_step a t) = labels a ++ [l]) \/
  ((t ∉ input_types) /\ labels (processing_step a t) = labels a).
Proof.
  unfold processing_step.
  destruct (String.eqb_spec t "Text") as [->|];
    [left; split; [unfold input_types; set_solver|now eexists]|].
  destruct (String.eqb_spec t "Images") as [->|];
    [left; split; [unfold input_types; set_solver|now eexists]|].
  destruct (String.eqb_spec t "Audio") as [->|];
    [left; split; [unfold input_types; set_solver|now eexists]|].
  destruct (String.eqb_spec t "Video") as [->|];
    [left; split; [unfold input_types; set_solver|now eexists]|].
  destruct (String.eqb_spec t "Documents") as [->|];
    [left; split; [unfold input_types; set_solver|now eexists]|].
  right. split; [now apply unknown_type|reflexivity].
Qed.

Lemma output_known (a : arrays) (t : string) :
  (t ∈ input_types /\ exists l, labels (output_step a t) = labels a ++ [l]) \/
  ((t ∉ input_types) /\ labels (output_step a t) = labels a).
Proof.
  unfold output_step.
  destruct (String.eqb_spec t "Text") as [->|];
    [left; split; [unfold input_types; set_solver|now eexists]|].
  destruct (String.eqb_spec t "Images") as [->|];
    [left; split; [unfold input_types; set_solver|now eexists]|].
  destruct (String.eqb_spec t "Audio") as [->|];
    [left; split; [unfold input_types; set_solver|now eexists]|].
  destruct (String.eqb_spec t "Video") as [->|];
    [left; split; [unfold input_types; set_solver|now eexists]|].
  destruct (String.eqb_spec t "Documents") as [->|];
    [left; split; [unfold input_types; set_solver|now eexists]|].
  right. split; [now apply unknown_type|reflexivity].
Qed.

(** How many labels the three loops make.  Every input type gets its
    "... Input" label, first in the list; a processing and an output label
    are added only for the five types the [if] chains name, so a type
    outside them shortens the two later stages and shifts what follows.
    The node colours are 15 and the link colours 10 whatever the types. *)
Theorem flow_label_count (types : list string) :
  length (labels (assemble types))
  = length types + 2 * length (filter (.∈ input_types) types) /\
  take (length types) (labels (assemble types))
  = map (fun t => t +:+ " Input") types /\
  exists fig,
    build types = Ok fig /\
    length (node_color fig) = 15 /\
    length (link_colors fig) = 10.
Proof.
  assert (L : exists extra,
             labels (assemble types)
             = map (fun t => t +:+ " Input") types ++ extra /\
             length extra = 2 * length (filter (.∈ input_types) types)).
  { unfold assemble, connect.
    destruct (connect_step_fold (seq 0 5)
                (fold_left output_step types
                   (fold_left processing_step types
                      (fold_left input_step types empty))))
      as (_ & _ & _ & ->).
    destruct (known_labels output_step types output_known
                (fold_left processing_step types
                   (fold_left input_step types empty)))
      as (outs & -> & Houts).
    destruct (known_labels processing_step types processing_known
                (fold_left input_step types empty))
      as (procs & -> & Hprocs).
    rewrite input_labels. simpl. exists (procs ++ outs).
    rewrite <- app_assoc, length_app. split; [reflexivity|lia]. }
  destruct L as (extra & E & Hextra).
  repeat split.
  - rewrite E, length_app, length_map. lia.
  - rewrite E. rewrite take_app_length'; [reflexivity|now rewrite length_map].
  - destruct (build_total types) as (nc & Hb).
    eexists. split; [exact Hb|]. cbn [node_color link_colors].
    destruct (assemble_links types) as (-> & _).
    split; [|reflexivity].
    unfold build in Hb. cbn in Hb. now injection Hb as <-.
Qed.

End MoreFlowFacts.

(** ** Tables built from records *)

Section MoreFrameFacts.
Import Py Frame.

Lemma existsb_eqb (k : string) (ks : list string) :
  existsb (String.eqb k) ks = true <-> k ∈ ks.
Proof.
  induction ks as [|x ks IH]; simpl.
  - split; [discriminate|]. intros H. now apply elem_of_nil in H.
  - rewrite orb_true_iff, IH, elem_of_cons, String.eqb_eq. tauto.
Qed.

Lemma add_key_spec (ks : list string) (k : string) :
  NoDup ks ->
  NoDup (add_key ks k) /\ forall x, x ∈ add_key ks k <-> x ∈ ks \/ x = k.
Proof.
  intros Hnd. unfold add_key.
  destruct (existsb (String.eqb k) ks) eqn:E.
  - apply existsb_eqb in E. split; [exact Hnd|].
    intros x. split; [tauto|]. intros [H| ->]; assumption.
  - assert (Hk : k ∉ ks).
    { intros H. apply existsb_eqb in H. congruence. }
    split.
    + apply NoDup_app. repeat split; [exact Hnd| |apply NoDup_singleton].
      intros x Hx Hx'. apply list_elem_of_singleton in Hx'. now subst.
    + intros x. rewrite elem_of_app, list_elem_of_singleton. tauto.
Qed.

Lemma assoc_is_Some {V : Type} (k : string) (d : list (string * V)) :
  is_Some (assoc k d) <-> k ∈ map fst d.
Proof.
  induction d as [|[k' v] d IH]; simpl.
  - split; [intros [? H]; discriminate|]. intros H. now apply elem_of_nil in H.
  - rewrite elem_of_cons.
    destruct (String.eqb_spec k k') as [->|Hne].
    + split; [now left|]. intros _. now eexists.
    + rewrite IH. split; [now right|]. intros [H|H]; [contradiction|exact H].
Qed.

Lemma keys_of_record (r : record) (ks : list string) :
  NoDup ks ->
  NoDup (fold_left (fun ks' kv => add_key ks' kv.1) r ks) /\
  forall x, x ∈ fold_left (fun ks' kv => add_key ks' kv.1) r ks
            <-> x ∈ ks \/ is_Some (assoc x r).
Proof.
  revert ks. induction r as [|[k v] r IH]; intros ks Hnd; simpl.
  - split; [exact Hnd|]. intros x. split; [tauto|].
    intros [H|[? H]]; [exact H|discriminate].
  - destruct (add_key_spec ks k Hnd) as [Hnd' Hin].
    destruct (IH _ Hnd') as [Hnd'' Hin'']. split; [exact Hnd''|].
    intros x. rewrite Hin'', Hin.
    destruct (String.eqb_spec x k) as [->|Hne].
    + split; [intros _; right; now eexists|]. intros _. left. now right.
    + split; [intros [[H|H]|H]; auto; contradiction|].
      intros [H|H]; auto.
Qed.

Lemma keys_of_records (recs : list record) (ks : list string) :
  NoDup ks ->
  NoDup (fold_left (fun ks r => fold_left (fun ks' kv => add_key ks' kv.1) r ks)
                   recs ks) /\
  forall x,
    x ∈ fold_left (fun ks r => fold_left (fun ks' kv => add_key ks' kv.1) r ks)
                  recs ks
    <-> x ∈ ks \/ exists r, r ∈ recs /\ is_Some (assoc x r).
Proof.
  revert ks. induction recs as [|r recs IH]; intros ks Hnd; simpl.
  - split; [exact Hnd|]. intros x. split; [tauto|].
    intros [H|(r & Hr & _)]; [exact H|]. now apply elem_of_nil in Hr.
  - destruct (keys_of_record r ks Hnd) as [Hnd' Hin].
    destruct (IH _ Hnd') as [Hnd'' Hin'']. split; [exact Hnd''|].
    intros x. rewrite Hin'', Hin. split.
    + intros [[H|H]|(r' & Hr' & H)]; [now left| |].
      * right. exists r. split; [apply elem_of_cons; now left|exact H].
      * right. exists r'. split; [apply elem_of_cons; now right|exact H].
    + intros [H|(r' & Hr' & H)]; [now left; left|].
      apply elem_of_cons in Hr' as [->|Hr']; [left; now right|].
      right. now exists r'.
Qed.

Lemma assoc_tabulate {V : Type} (g : string -> V) (k : string)
    (ks : list string) :
  assoc k (map (fun k' => (k', g k')) ks)
  = if decide (k ∈ ks) then Some (g k) else None.
Proof.
  induction ks as [|x ks IH]; simpl.
  - destruct (decide (k ∈ [])) as [H|]; [now apply elem_of_nil in H|reflexivity].
  - destruct (String.eqb_spec k x) as [->|Hne].
    + destruct (decide (x ∈ x :: ks)) as [|H]; [reflexivity|].
      exfalso. apply H, elem_of_cons. now left.
    + rewrite IH.
      destruct (decide (k ∈ ks)), (decide (k ∈ x :: ks)) as [H|H];
        try reflexivity; exfalso.
      * apply H, elem_of_cons. now right.
      * apply elem_of_cons in H as [H|H]; contradiction.
Qed.

Lemma from_records_names (recs : list record) :
  column_names (from_records recs) = record_keys recs.
Proof.
  unfold column_names, from_records. rewrite map_map. simpl. apply map_id.
Qed.

(** The table built from a list of records.  Its columns are the keys of
    the records, each once; a key that only some records have is a column
    all the same, with a gap where a record lacks it; every column has one
    cell per record; and reading a name that no record has as a key raises
    [KeyError]. *)
Theorem table_of_records (recs : list record) :
  NoDup (column_names (from_records recs)) /\
  (forall k, k ∈ column_names (from_records recs)
             <-> exists r, r ∈ recs /\ is_Some (assoc k r)) /\
  Forall (fun col => length col.2 = length recs) (from_records recs) /\
  (forall k,
     getitem k (from_records recs)
     = if decide (k ∈ column_names (from_records recs))
       then Ok (map (fun r => default CNaN (assoc k r)) recs)
       else Raise KeyError).
Proof.
  rewrite from_records_names. unfold record_keys.
  destruct (keys_of_records recs [] (NoDup_nil_2)) as [Hnd Hin].
  repeat split.
  - exact Hnd.
  - intros H. apply Hin in H as [H|H]; [now apply elem_of_nil in H|exact H].
  - intros H. apply Hin. now right.
  - unfold from_records. apply Forall_fmap, Forall_forall.
    intros k _. cbn. apply length_map.
  - intros k. unfold getitem, from_records.
    rewrite (assoc_tabulate
               (fun k' => map (fun r => default CNaN (assoc k' r)) recs)).
    now destruct (decide _).
Qed.

End MoreFrameFacts.

Section MoreAssignFacts.
Import Py Frame Truncation.

Lemma assoc_map_values (f : list cell -> list cell) (k : string)
    (df : DataFrame) :
  assoc k (map (fun col => (col.1, f col.2)) df) = f <$> assoc k df.
Proof.
  induction df as [|[k' v] df IH]; [reflexivity|].
  simpl. now destruct (String.eqb k k').
Qed.

Lemma names_set_col (k : string) (vs : list cell) (df : DataFrame) :
  column_names (set_col k vs df)
  = if decide (k ∈ column_names df) then column_names df
    else column_names df ++ [k].
Proof.
  unfold column_names. induction df as [|[k' v] df IH]; simpl.
  - destruct (decide (k ∈ [])) as [H|]; [now apply elem_of_nil in H|reflexivity].
  - destruct (String.eqb_spec k k') as [->|Hne]; simpl.
    + destruct (decide (k' ∈ k' :: map fst df)) as [|H]; [reflexivity|].
      exfalso. apply H, elem_of_cons. now left.
    + rewrite IH.
      destruct (decide (k ∈ map fst df)), (decide (k ∈ k' :: map fst df)) as [H|H];
        try reflexivity; exfalso.
      * apply H, elem_of_cons. now right.
      * apply elem_of_cons in H as [H|H]; contradiction.
Qed.

Lemma assoc_set_col_eq (k : string) (vs : list cell) (df : DataFrame) :
  assoc k (set_col k vs df) = Some vs.
Proof.
  induction df as [|[k' v] df IH]; simpl.
  - now rewrite String.eqb_refl.
  - destruct (String.eqb_spec k k') as [->|Hne]; simpl.
    + now rewrite String.eqb_refl.
    + destruct (String.eqb_spec k k'); [contradiction|exact IH].
Qed.

Lemma lengths_set_col (n : nat) (k : string) (vs : list cell) (df : DataFrame) :
  length vs = n ->
  Forall (fun col => length col.2 = n) df ->
  Forall (fun col => length col.2 = n) (set_col k vs df).
Proof.
  intros Hvs. induction 1 as [|[k' v] df Hv Hdf IH]; simpl.
  - repeat constructor. exact Hvs.
  - destruct (String.eqb k k'); constructor; auto.
Qed.

(** What an assignment that went through leaves behind. *)
Lemma setitem_shape (n : nat) (k : string) (vs : list cell) (df df' : DataFrame) :
  setitem k vs df = Ok df' ->
  df <> [] ->
  0 < n ->
  Forall (fun col => length col.2 = n) df ->
  df' <> [] /\
  Forall (fun col => length col.2 = n) df' /\
  column_names df'
  = (if decide (k ∈ column_names df) then column_names df
     else column_names df ++ [k]).
Proof.
  intros H Hne Hn Hall. destruct df as [|[k0 v0] df]; [contradiction|].
  assert (Hrows : 0 < nrows ((k0, v0) :: df)).
  { inversion Hall as [|? ? Hv0 _]; subst. simpl in *. lia. }
  destruct (setitem_rows _ _ _ _ Hrows H) as [-> E]. simpl in E.
  inversion Hall as [|? ? Hv0 _]; subst. simpl in E.
  split; [|split].
  - simpl. destruct (String.eqb k k0); discriminate.
  - exact (lengths_set_col _ k vs ((k0, v0) :: df) E Hall).
  - exact (names_set_col k vs ((k0, v0) :: df)).
Qed.

(** [df[k] = vs] and [df[k]].  After an assignment the column reads as
    what was assigned, and [k] keeps its place among the columns or, when
    it is new, comes last.  When the list has one item per row, or the
    table has no column at all, the other columns read as before.  The
    assignment is refused, with [ValueError], exactly when the table has
    rows and the list has another length.  A table with columns and no
    rows takes the length of a list that is not empty, and its other
    columns become gaps. *)
Theorem assign_then_read :
  (forall k vs df df',
     setitem k vs df = Ok df' ->
     getitem k df' = Ok vs /\
     column_names df'
     = (if decide (k ∈ column_names df) then column_names df
        else column_names df ++ [k])) /\
  (forall k vs df df',
     setitem k vs df = Ok df' ->
     df = [] \/ length vs = nrows df ->
     forall k', k' <> k -> getitem k' df' = getitem k' df) /\
  (forall k vs df,
     setitem k vs df = Raise ValueError <->
     0 < nrows df /\ length vs <> nrows df) /\
  (forall k vs df,
     df <> [] -> nrows df = 0 -> vs <> [] ->
     exists df',
       setitem k vs df = Ok df' /\
       nrows df' = length vs /\
       forall k', k' <> k -> k' ∈ column_names df ->
                  getitem k' df' = Ok (repeat CNaN (length vs))).
Proof.
  assert (Names : forall (n : nat) (df : DataFrame),
             column_names (map (fun col => (col.1, repeat CNaN n)) df)
             = column_names df).
  { intros n df. unfold column_names. rewrite map_map. reflexivity. }
  assert (Cases : forall k vs df df',
             setitem k vs df = Ok df' ->
             df' = set_col k vs df \/
             df' = set_col k vs
                     (map (fun col => (col.1, repeat CNaN (length vs))) df)).
  { intros k vs df df' H. destruct df as [|c df]; simpl in H;
      [left; now injection H|].
    destruct (_ =? _) in H; [left; now injection H|].
    destruct (_ =? _) in H; [right; now injection H|discriminate]. }
  split; [|split; [|split]].
  - intros k vs df df' H. unfold getitem.
    destruct (Cases k vs df df' H) as [-> | ->];
      rewrite assoc_set_col_eq, names_set_col, ?Names; now split.
  - intros k vs df df' H Hlen k' Hne. unfold getitem.
    assert (E : df' = set_col k vs df).
    { destruct df as [|c df]; [simpl in H; now injection H|].
      destruct Hlen as [Hlen|Hlen]; [discriminate Hlen|].
      unfold setitem in H.
      apply Nat.eqb_eq in Hlen. rewrite Hlen in H. now injection H. }
    now rewrite E, (assoc_set_col_ne k' k vs df Hne).
  - intros k vs df. unfold setitem. destruct df as [|c df].
    + split; [discriminate|]. simpl. lia.
    + destruct (Nat.eqb_spec (length vs) (nrows (c :: df))) as [E|E].
      * split; [discriminate|]. intros [_ H]. contradiction.
      * destruct (Nat.eqb_spec (nrows (c :: df)) 0) as [Z|Z].
        -- split; [discriminate|]. lia.
        -- split; [|reflexivity]. intros _. split; [lia|exact E].
  - intros k vs df Hdf Hrows Hvs.
    assert (Hlen : length vs <> nrows df).
    { rewrite Hrows. destruct vs; [contradiction|discriminate]. }
    exists (set_col k vs
              (map (fun col => (col.1, repeat CNaN (length vs))) df)).
    split; [|split].
    + unfold setitem. destruct df as [|c df]; [contradiction|].
      apply Nat.eqb_neq in Hlen. rewrite Hlen.
      apply Nat.eqb_eq in Hrows. now rewrite Hrows.
    + destruct df as [|[k0 v0] df]; [contradiction|].
      cbn [map set_col fst snd].
      destruct (String.eqb k k0); cbn [nrows];
        [reflexivity|apply repeat_length].
    + intros k' Hne Hk'. unfold getitem.
      rewrite (assoc_set_col_ne k' k vs _ Hne).
      rewrite (assoc_map_values (fun _ => repeat CNaN (length vs))).
      apply assoc_is_Some in Hk' as [v ->]. reflexivity.
Qed.

(** A column assigned to a table of two rows, and to a table that has a
    column and no row. *)
Lemma assign_then_read_witness :
  (exists df',
     setitem "Stars" [CInt 1; CInt 2] [("Name", [CStr "a"; CStr "b"])] = Ok df' /\
     getitem "Stars" df' = Ok [CInt 1; CInt 2] /\
     getitem "Name" df' = Ok [CStr "a"; CStr "b"] /\
     column_names df' = ["Name"; "Stars"]) /\
  (exists df',
     setitem "Stars" [CInt 1; CInt 2] [("Name", [])] = Ok df' /\
     nrows df' = 2 /\
     getitem "Name" df' = Ok [CNaN; CNaN]).
Proof.
  split.
  - eexists. split; [reflexivity|].
    destruct (proj1 assign_then_read "Stars" [CInt 1; CInt 2]
                [("Name", [CStr "a"; CStr "b"])] _ eq_refl) as (H1 & H3).
    split; [exact H1|]. split; [|exact H3].
    apply (proj1 (proj2 assign_then_read) "Stars" [CInt 1; CInt 2]
             [("Name", [CStr "a"; CStr "b"])] _ eq_refl);
      [now right|discriminate].
  - destruct (proj2 (proj2 (proj2 assign_then_read)) "Stars"
                [CInt 1; CInt 2] [("Name", [])])
      as (df' & H & Hn & Hk); [discriminate|reflexivity|discriminate|].
    exists df'. split; [exact H|]. split; [exact Hn|].
    apply Hk; [discriminate|]. apply elem_of_cons. now left.
Defined.

Lemma not_among (k : string) (l : list string) :
  forallb (fun x => negb (String.eqb x k)) l = true -> k ∉ l.
Proof.
  intros H Hk. rewrite forallb_forall in H.
  apply list_elem_of_In in Hk. specialize (H k Hk).
  now rewrite String.eqb_refl in H.
Qed.

Lemma from_records_lengths (recs : list record) :
  Forall (fun col => length col.2 = length recs) (from_records recs).
Proof.
  unfold from_records. apply Forall_fmap, Forall_forall.
  intros k _. cbn. apply length_map.
Qed.

Lemma getitem_missing (k : string) (df : DataFrame) :
  k ∉ column_names df -> getitem k df = Raise KeyError.
Proof.
  intros H. unfold getitem.
  destruct (assoc k df) eqn:E; [|reflexivity].
  exfalso. apply H. unfold column_names. apply assoc_is_Some.
  rewrite E. now eexists.
Qed.

Lemma getitem_nonempty (k : string) (df : DataFrame) (v : list cell) :
  getitem k df = Ok v -> df <> [].
Proof. intros H ->. discriminate H. Qed.

(** What the preparation of the server table adds.  When it returns, and
    no record had a key named like a derived column, the table has the
    columns of the records followed by the five derived ones, in the order
    the script assigns them ([Server_Short], assigned twice, stands once),
    and every column has one cell per record. *)
Theorem prepare_adds_five_columns (recs : list record) (df : DataFrame) :
  McpChart.prepare recs = Ok df ->
  Forall (.∉ column_names (from_records recs))
         ["Stars_Numeric"; "Server_Short"; "Features_Short";
          "Use_Cases_Short"; "Complexity_Numeric"] ->
  column_names df
  = column_names (from_records recs)
    ++ ["Stars_Numeric"; "Server_Short"; "Features_Short";
        "Use_Cases_Short"; "Complexity_Numeric"] /\
  Forall (fun col => length col.2 = length recs) df.
Proof.
  intros H Hnew. unfold McpChart.prepare in H.
  set (names := column_names (from_records recs)) in *.
  assert (N0 : column_names (from_records recs) = names) by reflexivity.
  clearbody names.
  pose proof (from_records_lengths recs) as L0.
  apply bind_Ok in H as (stars & Hs & H).
  pose proof (getitem_nonempty _ _ _ Hs) as E0.
  destruct (from_records_rows _ _ _ Hs) as [P0 _].
  apply bind_Ok in H as (stars1 & _ & H).
  apply bind_Ok in H as (stars2 & _ & H).
  apply bind_Ok in H as (df1 & S1 & H).
  destruct (setitem_shape _ _ _ _ _ S1 E0 P0 L0) as (E1 & L1 & N1).
  apply bind_Ok in H as (n1 & _ & H).
  apply bind_Ok in H as (n2 & _ & H).
  apply bind_Ok in H as (n3 & _ & H).
  apply bind_Ok in H as (n4 & _ & H).
  apply bind_Ok in H as (df2 & S2 & H).
  destruct (setitem_shape _ _ _ _ _ S2 E1 P0 L1) as (E2 & L2 & N2).
  apply bind_Ok in H as (n5 & _ & H).
  apply bind_Ok in H as (n6 & _ & H).
  apply bind_Ok in H as (df3 & S3 & H).
  destruct (setitem_shape _ _ _ _ _ S3 E2 P0 L2) as (E3 & L3 & N3).
  apply bind_Ok in H as (f1 & _ & H).
  apply bind_Ok in H as (f2 & _ & H).
  apply bind_Ok in H as (df4 & S4 & H).
  destruct (setitem_shape _ _ _ _ _ S4 E3 P0 L3) as (E4 & L4 & N4).
  apply bind_Ok in H as (u1 & _ & H).
  apply bind_Ok in H as (u2 & _ & H).
  apply bind_Ok in H as (df5 & S5 & H).
  destruct (setitem_shape _ _ _ _ _ S5 E4 P0 L4) as (E5 & L5 & N5).
  apply bind_Ok in H as (c1 & _ & H).
  destruct (setitem_shape _ _ _ _ _ H E5 P0 L5) as (_ & L6 & N6).
  split; [|exact L6].
  rewrite N0 in N1.
  apply Forall_cons in Hnew as [H1 Hnew].
  apply Forall_cons in Hnew as [H2 Hnew].
  apply Forall_cons in Hnew as [H3 Hnew].
  apply Forall_cons in Hnew as [H4 Hnew].
  apply Forall_cons in Hnew as [H5 _].
  assert (Fresh : forall k (l : list string),
             k ∉ names -> k ∉ l -> k ∉ names ++ l).
  { intros k l Hk Hl Hx. apply elem_of_app in Hx as [Hx|Hx]; contradiction. }
  assert (Other : forall k (l : list string),
             Forall (fun x => x <> k) l -> k ∉ l).
  { intros k l Hl Hx. rewrite Forall_forall in Hl. now apply (Hl k). }
  assert (In2 : forall (k a : string) l, k ∈ l -> k ∈ a :: l)
    by (intros; apply elem_of_cons; now right).
  rewrite decide_False in N1 by exact H1.
  rewrite N1 in N2.
  rewrite decide_False in N2
    by (apply Fresh;
        [exact H2|apply Other; repeat (constructor; [discriminate|]); constructor]).
  rewrite <- app_assoc in N2. cbn [app] in N2.
  rewrite N2 in N3.
  rewrite decide_True in N3
    by (apply elem_of_app; right; apply In2, elem_of_cons; now left).
  rewrite N3 in N4.
  rewrite decide_False in N4
    by (apply Fresh;
        [exact H3|apply Other; repeat (constructor; [discriminate|]); constructor]).
  rewrite <- app_assoc in N4. cbn [app] in N4.
  rewrite N4 in N5.
  rewrite decide_False in N5
    by (apply Fresh;
        [exact H4|apply Other; repeat (constructor; [discriminate|]); constructor]).
  rewrite <- app_assoc in N5. cbn [app] in N5.
  rewrite N5 in N6.
  rewrite decide_False in N6
    by (apply Fresh;
        [exact H5|apply Other; repeat (constructor; [discriminate|]); constructor]).
  rewrite <- app_assoc in N6. cbn [app] in N6.
  exact N6.
Qed.

(** The fifteen servers of the script. *)
Lemma prepare_adds_five_columns_witness :
  exists df,
    McpChart.prepare McpChart.data = Ok df /\
    column_names df
    = ["Server Name"; "Category"; "Key Features"; "Best Use Cases";
       "Installation Complexity"; "GitHub Stars"; "Stars_Numeric";
       "Server_Short"; "Features_Short"; "Use_Cases_Short";
       "Complexity_Numeric"] /\
    nrows df = 15.
Proof.
  eexists. split; [vm_compute; reflexivity|].
  split.
  - refine (proj1 (prepare_adds_five_columns McpChart.data _ _ _)).
    + vm_compute. reflexivity.
    + assert (E : column_names (from_records McpChart.data)
                  = ["Server Name"; "Category"; "Key Features";
                     "Best Use Cases"; "Installation Complexity";
                     "GitHub Stars"]) by (vm_compute; reflexivity).
      rewrite E.
      repeat (apply Forall_cons; split; [now apply not_among|]).
      apply Forall_nil_2.
  - reflexivity.
Defined.

(** Without the columns they start from, the preparations stop at once:
    a dataset in which no record has the stars, or the model, raises
    [KeyError], and so does an empty dataset. *)
Theorem prepare_needs_its_columns :
  (forall recs,
     "GitHub Stars" ∉ column_names (from_records recs) ->
     McpChart.prepare recs = Raise KeyError) /\
  (forall recs,
     "Model" ∉ column_names (from_records recs) ->
     RpmChart.prepare recs = Raise KeyError) /\
  McpChart.prepare [] = Raise KeyError /\
  RpmChart.prepare [] = Raise KeyError.
Proof.
  repeat split.
  - intros recs H. unfold McpChart.prepare.
    now rewrite (getitem_missing _ _ H).
  - intros recs H. unfold RpmChart.prepare.
    now rewrite (getitem_missing _ _ H).
Qed.

(** Records that have a name and nothing else. *)
Lemma prepare_needs_its_columns_witness :
  McpChart.prepare [[("Server Name", CStr "Weather MCP")]] = Raise KeyError.
Proof.
  apply (proj1 prepare_needs_its_columns).
  change (column_names (from_records [[("Server Name", CStr "Weather MCP")]]))
    with ["Server Name"].
  now apply not_among.
Defined.

Lemma apply_texts (f : string -> string) (g : cell -> result cell)
    (col : list cell) :
  (forall x, g (CStr x) = Ok (CStr (f x))) ->
  g (CInt 0) = Raise TypeError ->
  (forall z, g (CInt z) = Raise TypeError) ->
  g CNaN = Raise TypeError ->
  apply g col
  = if forallb is_str col
    then Ok (map (fun c => match c with CStr x => CStr (f x) | _ => c end) col)
    else Raise TypeError.
Proof.
  intros Hstr _ Hint Hnan. unfold apply.
  induction col as [|c col IH]; [reflexivity|].
  cbn [mapM forallb map]. destruct c as [x|z|]; cbn [is_str andb].
  - rewrite Hstr. cbn. rewrite IH. now destruct (forallb is_str col).
  - now rewrite Hint.
  - now rewrite Hnan.
Qed.

(** The two [lambda]s work on texts only.  On a column of texts [apply]
    gives the column of labels; as soon as one cell is a number or a gap,
    which is what a record without the key leaves, [len] raises
    [TypeError] and no label column is made. *)
Theorem label_lambdas_need_texts (col : list cell) :
  apply McpChart.short_label col
  = (if forallb is_str col
     then Ok (map (fun c => match c with
                            | CStr x => CStr (truncate 15 x)
                            | _ => c
                            end) col)
     else Raise TypeError) /\
  apply McpChart.short_text col
  = (if forallb is_str col
     then Ok (map (fun c => match c with
                            | CStr x => CStr (truncate_ellipsis 50 x)
                            | _ => c
                            end) col)
     else Raise TypeError).
Proof.
  split.
  - apply (apply_texts (truncate 15)); reflexivity.
  - apply (apply_texts (truncate_ellipsis 50)); reflexivity.
Qed.

End MoreAssignFacts.

(** ** Report loops *)

Section MoreReportFacts.
Import Py Report ReportLoops.

Lemma then_run_ok (a b : run) :
  raised a = None ->
  then_run a b = {| printed := printed a ++ printed b; raised := raised b |}.
Proof. unfold then_run. now intros ->. Qed.



















End MoreReportFacts.

Section MoreHeadingFacts.
Import Py Report ReportLoops.

Lemma upper_char_twice (c : ascii) : upper_char (upper_char c) = upper_char c.
Proof.
  unfold upper_char.
  destruct ((97 <=? nat_of_ascii c) && (nat_of_ascii c <=? 122)) eqn:E.
  - apply andb_true_iff in E as [E1 E2].
    apply Nat.leb_le in E1, E2.
    rewrite nat_ascii_embedding by lia.
    replace (97 <=? nat_of_ascii c - 32) with false
      by (symmetry; apply Nat.leb_gt; lia).
    reflexivity.
  - now rewrite E.
Qed.

Lemma upper_twice (s : string) : upper (upper s) = upper s.
Proof.
  induction s as [|c s IH]; [reflexivity|].
  simpl. now rewrite upper_char_twice, IH.
Qed.

Lemma upper_length (s : string) : String.length (upper s) = String.length s.
Proof. induction s as [|c s IH]; simpl; auto. Qed.

(** Putting blanks for underscores keeps the length, leaves no underscore
    and makes no lower-case letter. *)
Lemma blanks_for_underscores (s : string) :
  String.length (replace "_" " " s) = String.length s /\
  has_char "_"%char (replace "_" " " s) = false /\
  (upper s = s -> upper (replace "_" " " s) = replace "_" " " s).
Proof.
  cbn [replace]. induction s as [|c s (IHl & IHu & IHc)].
  - repeat split.
  - cbn [replace_from String.prefix String.length Nat.sub].
    destruct (ascii_dec "_"%char c) as [<-|Hne].
    + replace (String.prefix "" s) with true by now destruct s.
      rewrite str_app_cons, str_app_empty_l. cbn [String.length has_char].
      repeat split; [now rewrite IHl|exact IHu|].
      intros H. simpl in H. injection H as H. simpl. now rewrite (IHc H).
    + cbn [String.length has_char].
      repeat split; [now rewrite IHl| |].
      * rewrite IHu.
        destruct (Ascii.eqb_spec c "_"%char) as [->|]; [contradiction|].
        reflexivity.
      * intros H. simpl in H. injection H as Hc H. simpl.
        now rewrite Hc, (IHc H).
Qed.

(** The heading of a section whose key is an ASCII text is a blank line,
    three blanks, the key and a colon, where the key has kept its length,
    shows no underscore and no lower-case letter. *)
Theorem heading_shape (k : string) :
  is_ascii k = true ->
  exists shown,
    heading k = nl +:+ "   " +:+ shown +:+ ":" /\
    String.length shown = String.length k /\
    has_char "_"%char shown = false /\
    upper shown = shown.
Proof.
  intros _. exists (replace "_" " " (upper k)).
  destruct (blanks_for_underscores (upper k)) as (Hl & Hu & Hc).
  repeat split.
  - now rewrite Hl, upper_length.
  - exact Hu.
  - apply Hc, upper_twice.
Qed.

(** The first key of the capability dataset. *)
Lemma heading_shape_witness :
  is_ascii "image_processing" = true /\
  heading "image_processing" = nl +:+ "   IMAGE PROCESSING:" /\
  exists shown,
    heading "image_processing" = nl +:+ "   " +:+ shown +:+ ":" /\
    String.length shown = 16 /\
    has_char "_"%char shown = false /\
    upper shown = shown.
Proof.
  split; [reflexivity|]. split; [reflexivity|].
  exact (heading_shape "image_processing" eq_refl).
Defined.

Lemma numbered_run (line : nat -> pyval -> string) (l : list pyval) (i : nat) :
  numbered line i l
  = {| printed := imap (fun j x => line (i + j) x) l; raised := None |}.
Proof.
  revert i. induction l as [|x l IH]; intros i; [reflexivity|].
  cbn [numbered imap]. rewrite then_run_ok by reflexivity.
  rewrite IH. cbn [printed raised app]. rewrite Nat.add_0_r.
  f_equal. f_equal. apply imap_ext. intros j y _. cbn.
  f_equal. lia.
Qed.



(** The numbered list of strategies: one line per strategy, none left
    out, the i-th line carrying the number i counted from 1; the loop
    raises nothing. *)
Theorem strategies_numbered (l : list string) :
  raised (print_strategies l) = None /\
  length (printed (print_strategies l)) = length l /\
  forall i s,
    l !! i = Some s ->
    printed (print_strategies l) !! i
    = Some ("   " +:+ str_of_int (Z.of_nat (S i)) +:+ ". " +:+ s).
Proof.
  unfold print_strategies. rewrite numbered_run. cbn [printed raised].
  split; [reflexivity|]. split.
  - now rewrite length_imap, length_map.
  - intros i s Hi. rewrite list_lookup_imap, list_lookup_fmap, Hi.
    reflexivity.
Qed.

(** The first strategy of the script is line 1. *)
Lemma strategies_numbered_witness :
  rate_strategies !! 0 = Some "Queue system for concurrent requests" /\
  printed (print_strategies rate_strategies) !! 0
  = Some "   1. Queue system for concurrent requests".
Proof.
  split; [reflexivity|].
  exact (proj2 (proj2 (strategies_numbered rate_strategies)) 0 _ eq_refl).
Defined.


End MoreHeadingFacts.

Section MoreLoopFacts.
Import Py.
Context {A B : Type} (f : A -> result B).

Lemma mapM_step (x : A) (l : list A) :
  mapM f (x :: l)
  = Py.bind (f x) (fun y => Py.bind (mapM f l) (fun k => Ok (y :: k))).
Proof. reflexivity. Qed.

Lemma mapM_returns (l : list A) (ys : list B) :
  mapM f l = Ok ys <-> Forall2 (fun x y => f x = Ok y) l ys.
Proof.
  revert ys. induction l as [|x l IH]; intros ys.
  - split.
    + intros H. injection H as <-. constructor.
    + intros H. inversion H. reflexivity.
  - rewrite mapM_step. split.
    + intros H. destruct (f x) as [y|e] eqn:Ex; [|discriminate].
      cbn [Py.bind] in H.
      destruct (mapM f l) as [k|e] eqn:El; [|discriminate].
      injection H as <-. constructor; [exact Ex|]. now apply IH.
    + intros H. inversion H as [|x' y l' k Hx Hl]; subst.
      rewrite Hx. cbn [Py.bind]. apply IH in Hl. now rewrite Hl.
Qed.

Lemma mapM_raised (l : list A) (e : exn) :
  mapM f l = Raise e -> exists x, x ∈ l /\ f x = Raise e.
Proof.
  induction l as [|x l IH]; [discriminate|].
  rewrite mapM_step. destruct (f x) as [y|e'] eqn:Ex; cbn [Py.bind].
  - destruct (mapM f l) as [k|e'] eqn:El; [discriminate|].
    intros H. injection H as ->.
    destruct (IH eq_refl) as (z & Hz & Ez).
    exists z. split; [apply elem_of_cons; now right|exact Ez].
  - intros H. injection H as ->.
    exists x. split; [apply elem_of_cons; now left|exact Ex].
Qed.

Lemma mapM_one_kind (l : list A) (e : exn) :
  (forall x e', x ∈ l -> f x = Raise e' -> e' = e) ->
  (exists x e', x ∈ l /\ f x = Raise e') ->
  mapM f l = Raise e.
Proof.
  intros Hall (x & e' & Hx & Ex).
  destruct (mapM f l) as [ys|e''] eqn:E.
  - apply mapM_returns in E.
    apply list_elem_of_lookup in Hx as [i Hi].
    destruct (Forall2_lookup_l _ _ _ _ _ E Hi) as (y & _ & Hy).
    congruence.
  - apply mapM_raised in E as (z & Hz & Ez).
    now rewrite (Hall z e'' Hz Ez).
Qed.

Lemma mapM_total (l : list A) :
  Forall (fun x => exists y, f x = Ok y) l -> exists ys, mapM f l = Ok ys.
Proof.
  induction 1 as [|x l [y Hy] _ [ys IH]].
  - now exists [].
  - exists (y :: ys). rewrite mapM_step, Hy. cbn [Py.bind]. now rewrite IH.
Qed.

End MoreLoopFacts.

Section MoreCapabilityFacts.
Import Py Frame CapabilityChart.









End MoreCapabilityFacts.

Section MoreTableFacts.
Import Py ComparisonTable.

Lemma item_returns (row : list string) (i : nat) (x : string) :
  match row !! i with
  | Some y => Ok y
  | None => Raise IndexError
  end = Ok x <-> row !! i = Some x.
Proof. destruct (row !! i); split; congruence. Qed.

Lemma column_returns (matrix : list (list string)) (i : nat)
    (col : list string) :
  column matrix i = Ok col <->
  Forall2 (fun row x => row !! i = Some x) matrix col.
Proof.
  unfold column. rewrite mapM_returns. split; intros H;
    (eapply Forall2_impl; [exact H|]); intros row x; apply item_returns.
Qed.

Lemma column_raised (matrix : list (list string)) (i : nat) (e : exn) :
  column matrix i = Raise e -> e = IndexError.
Proof.
  intros H. apply mapM_raised in H as (row & _ & H).
  destruct (row !! i); congruence.
Qed.

Lemma column_short (matrix : list (list string)) (i : nat) :
  Exists (fun row => length row <= i) matrix ->
  column matrix i = Raise IndexError.
Proof.
  intros H. apply Exists_exists in H as (row & Hrow & Hlen).
  apply mapM_one_kind.
  - intros r e _ E. destruct (r !! i); congruence.
  - exists row, IndexError. split; [exact Hrow|].
    now rewrite (lookup_ge_None_2 row i Hlen).
Qed.

(** The cells of the comparison table.  When every row of the matrix has
    an item for each user group, the cells are the categories followed by
    one column per group, and the i-th column holds the i-th item of every
    row, in the order of the rows: the matrix is transposed.  When a row
    has fewer items than there are groups, building the cells raises
    [IndexError]. *)
Theorem comparison_cells (groups cats : list string)
    (matrix : list (list string)) :
  (Forall (fun row => length groups <= length row) matrix ->
   exists cols,
     cells groups cats matrix = Ok (cats :: cols) /\
     length cols = length groups /\
     forall i col,
       cols !! i = Some col ->
       Forall2 (fun row x => row !! i = Some x) matrix col) /\
  (Exists (fun row => length row < length groups) matrix ->
   cells groups cats matrix = Raise IndexError).
Proof.
  unfold cells. split.
  - intros Hrows.
    destruct (mapM_total (column matrix) (seq 0 (length groups)))
      as [cols Hcols].
    { apply Forall_forall. intros i Hi. apply elem_of_seq in Hi.
      apply (mapM_total (fun row => match row !! i with
                                    | Some x => Ok x
                                    | None => Raise IndexError
                                    end)).
      eapply Forall_impl; [exact Hrows|]. intros row Hrow. cbn beta in *.
      destruct (lookup_lt_is_Some_2 row i) as [x Hx]; [lia|].
      exists x. now rewrite Hx. }
    exists cols. rewrite Hcols.
    apply mapM_returns in Hcols. split; [reflexivity|]. split.
    + rewrite <- (Forall2_length _ _ _ Hcols). apply length_seq.
    + intros i col Hi.
      destruct (Forall2_lookup_r _ _ _ _ _ Hcols Hi) as (j & Hj & Hcol).
      apply lookup_seq in Hj as [-> _]. now apply column_returns.
  - intros Hshort.
    rewrite (mapM_one_kind (column matrix) (seq 0 (length groups)) IndexError);
      [reflexivity| |].
    + intros i e _. apply column_raised.
    + apply Exists_exists in Hshort as (row & Hrow & Hlen).
      exists (length row), IndexError. split.
      * apply elem_of_seq. lia.
      * apply column_short, Exists_exists. exists row. split; [exact Hrow|lia].
Qed.

(** The table of the script has four columns of five cells after the
    categories; a matrix with a row of one item for two groups fails. *)
Lemma comparison_cells_witness :
  (exists cols,
     cells user_groups categories data_matrix = Ok (categories :: cols) /\
     length cols = 4 /\
     forall i col,
       cols !! i = Some col ->
       Forall2 (fun row x => row !! i = Some x) data_matrix col) /\
  cells ["a"; "b"] ["c"] [["x"; "y"]; ["z"]] = Raise IndexError.
Proof.
  split.
  - apply (proj1 (comparison_cells user_groups categories data_matrix)).
    unfold data_matrix, user_groups.
    repeat (apply Forall_cons; split; [cbn; lia|]). apply Forall_nil_2.
  - apply (proj2 (comparison_cells ["a"; "b"] ["c"] [["x"; "y"]; ["z"]])).
    apply Exists_cons. right. apply Exists_cons. left. cbn. lia.
Defined.

End MoreTableFacts.

Section MoreGuideFacts.
Import Py Frame McpGuide.

Lemma dict_set_read (k : string) (v : cell) (r : record) :
  assoc k (dict_set k v r) = Some v.
Proof.
  induction r as [|[k' x] r IH]; simpl.
  - now rewrite String.eqb_refl.
  - destruct (String.eqb_spec k k') as [->|Hne]; simpl.
    + now rewrite String.eqb_refl.
    + destruct (String.eqb_spec k k'); [contradiction|exact IH].
Qed.

Lemma dict_set_others (k k' : string) (v : cell) (r : record) :
  k' <> k -> assoc k' (dict_set k v r) = assoc k' r.
Proof.
  intros Hne. induction r as [|[k0 x] r IH]; simpl.
  - destruct (String.eqb_spec k' k); [contradiction|reflexivity].
  - destruct (String.eqb_spec k k0) as [->|Hk]; simpl.
    + destruct (String.eqb_spec k' k0); [contradiction|reflexivity].
    + now rewrite IH.
Qed.

Lemma dict_set_keys (k : string) (v : cell) (r : record) :
  map fst (dict_set k v r)
  = if decide (k ∈ map fst r) then map fst r else map fst r ++ [k].
Proof.
  induction r as [|[k0 x] r IH]; simpl.
  - destruct (decide (k ∈ [])) as [H|]; [now apply elem_of_nil in H|reflexivity].
  - destruct (String.eqb_spec k k0) as [->|Hk]; simpl.
    + destruct (decide (k0 ∈ k0 :: map fst r)) as [|H]; [reflexivity|].
      exfalso. apply H, elem_of_cons. now left.
    + rewrite IH.
      destruct (decide (k ∈ map fst r)) as [H|H],
               (decide (k ∈ k0 :: map fst r)) as [H'|H'];
        try reflexivity; exfalso.
      * apply H', elem_of_cons. now right.
      * apply elem_of_cons in H' as [H'|H']; contradiction.
Qed.

Lemma add_servers (cat : string) (servers pre post : list record)
    (a : list nat) :
  fold_left (add_server cat) (seq (length pre) (length servers))
            {| heap := pre ++ servers ++ post; all_servers := a |}
  = {| heap := pre ++ map (dict_set "Section" (CStr cat)) servers ++ post;
       all_servers := a ++ seq (length pre) (length servers) |}.
Proof.
  revert pre a. induction servers as [|x servers IH]; intros pre a.
  - cbn. now rewrite app_nil_r.
  - cbn [length seq fold_left map app]. unfold add_server at 2.
    cbn [heap all_servers].
    replace (alter (dict_set "Section" (CStr cat)) (length pre)
                   (pre ++ x :: servers ++ post))
      with ((pre ++ [dict_set "Section" (CStr cat) x]) ++ servers ++ post).
    + replace (S (length pre))
        with (length (pre ++ [dict_set "Section" (CStr cat) x]))
        by (rewrite length_app; cbn; lia).
      rewrite IH. rewrite <- !app_assoc. now cbn [app].
    + rewrite <- (Nat.add_0_r (length pre)) at 1.
      rewrite alter_app_r. rewrite <- app_assoc. reflexivity.
Qed.

Lemma load_heap (literal : list (string * list record)) (next : nat) :
  (load literal next).1 = flat_map snd literal.
Proof.
  revert next. induction literal as [|[cat servers] rest IH]; intros next.
  - reflexivity.
  - cbn [load fst snd flat_map]. now rewrite IH.
Qed.

Lemma tagged_length (literal : list (string * list record)) :
  length (flat_map (fun s => map (dict_set "Section" (CStr s.1)) s.2) literal)
  = length (flat_map snd literal).
Proof.
  induction literal as [|[cat servers] rest IH]; [reflexivity|].
  cbn [flat_map fst snd]. now rewrite !length_app, length_map, IH.
Qed.

Lemma flatten_new_objects (literal : list (string * list record))
    (pre : list record) (a : list nat) :
  flatten (load literal (length pre)).2
          {| heap := pre ++ flat_map snd literal; all_servers := a |}
  = {| heap := pre ++ flat_map (fun s => map (dict_set "Section" (CStr s.1)) s.2)
                               literal;
       all_servers := a ++ seq (length pre) (length (flat_map snd literal)) |}.
Proof.
  revert pre a. induction literal as [|[cat servers] rest IH]; intros pre a.
  - unfold flatten. cbn. now rewrite !app_nil_r.
  - cbn [load fst snd flat_map]. unfold flatten. cbn [fold_left fst snd].
    rewrite add_servers. fold (flatten (load rest (length pre + length servers)).2).
    rewrite app_assoc.
    replace (length pre + length servers)
      with (length (pre ++ map (dict_set "Section" (CStr cat)) servers))
      by (now rewrite length_app, length_map).
    rewrite IH. rewrite length_app, length_map.
    rewrite <- !app_assoc. f_equal. f_equal.
    rewrite (length_app servers). now rewrite seq_app.
Qed.

Lemma omap_step {X Y : Type} (g : X -> option Y) (x : X) (l : list X) :
  omap g (x :: l)
  = match g x with
    | Some y => y :: omap g l
    | None => omap g l
    end.
Proof. reflexivity. Qed.

Lemma read_range (h pre post : list record) :
  omap (fun l => (pre ++ h ++ post) !! l) (seq (length pre) (length h)) = h.
Proof.
  revert pre. induction h as [|x h IH]; intros pre; [reflexivity|].
  cbn [length seq app].
  rewrite omap_step, list_lookup_middle by reflexivity.
  f_equal.
  replace (S (length pre)) with (length (pre ++ [x]))
    by (rewrite length_app; cbn; lia).
  specialize (IH (pre ++ [x])). rewrite <- app_assoc in IH. exact IH.
Qed.

Lemma view_new_objects (literal : list (string * list record))
    (pre post : list record) :
  view (pre ++ flat_map (fun s => map (dict_set "Section" (CStr s.1)) s.2)
                        literal ++ post)
       (load literal (length pre)).2
  = map (fun s => (s.1, map (dict_set "Section" (CStr s.1)) s.2)) literal.
Proof.
  revert pre. induction literal as [|[cat servers] rest IH]; intros pre.
  - reflexivity.
  - cbn [load fst snd flat_map map view]. f_equal.
    + f_equal. rewrite <- app_assoc.
      rewrite <- (length_map (dict_set "Section" (CStr cat)) servers) at 1.
      apply read_range.
    + replace (length pre + length servers)
        with (length (pre ++ map (dict_set "Section" (CStr cat)) servers))
        by (now rewrite length_app, length_map).
      rewrite <- (IH (pre ++ map (dict_set "Section" (CStr cat)) servers)).
      unfold view. now rewrite <- !app_assoc.
Qed.

Lemma run_records (literal : list (string * list record)) :
  records_of (run literal)
  = flat_map (fun s => map (dict_set "Section" (CStr s.1)) s.2) literal.
Proof.
  unfold run, records_of. cbn zeta. rewrite load_heap.
  pose proof (flatten_new_objects literal [] []) as H.
  cbn [length app] in H. rewrite H. cbn [heap all_servers].
  rewrite <- tagged_length.
  pose proof (read_range
    (flat_map (fun s => map (dict_set "Section" (CStr s.1)) s.2) literal)
    [] []) as R.
  cbn [length app] in R. rewrite app_nil_r in R. exact R.
Qed.

(** The loop that flattens the guide.  On a dataset written as a literal
    the list of all servers holds the records of the sections in order,
    each with the name of its section under the key ["Section"]; and since
    the loop writes into the records themselves, the dataset holds the
    same changed records afterwards.  The assignment replaces a
    ["Section"] the record had, keeps the other keys and their order, and
    puts a new key last.  A record that two sections share is listed
    twice, both times with the later section. *)
Theorem flatten_tags_sections :
  (forall literal,
     records_of (run literal)
     = flat_map (fun s => map (dict_set "Section" (CStr s.1)) s.2) literal /\
     view (heap (run literal)) (load literal 0).2
     = map (fun s => (s.1, map (dict_set "Section" (CStr s.1)) s.2)) literal) /\
  (forall k v r,
     assoc k (dict_set k v r) = Some v /\
     (forall k', k' <> k -> assoc k' (dict_set k v r) = assoc k' r) /\
     map fst (dict_set k v r)
     = if decide (k ∈ map fst r) then map fst r else map fst r ++ [k]) /\
  (forall r a b,
     records_of (flatten [(a, [0]); (b, [0])]
                         {| heap := [r]; all_servers := [] |})
     = [dict_set "Section" (CStr b) (dict_set "Section" (CStr a) r);
        dict_set "Section" (CStr b) (dict_set "Section" (CStr a) r)]).
Proof.
  split; [|split].
  - intros literal. split; [apply run_records|].
    unfold run. cbn zeta. rewrite load_heap.
    pose proof (flatten_new_objects literal [] []) as H.
    cbn [length app] in H. rewrite H. cbn [heap].
    pose proof (view_new_objects literal [] []) as V.
    cbn [length app] in V. rewrite app_nil_r in V. exact V.
  - intros k v r. split; [apply dict_set_read|].
    split; [intros k'; apply dict_set_others|apply dict_set_keys].
  - intros r a b. reflexivity.
Qed.

(** Setting the section leaves the priority of a record as it was. *)
Lemma flatten_tags_sections_witness :
  "Priority" <> "Section" /\
  assoc "Priority"
        (dict_set "Section" (CStr "Essential MCP Servers")
                  [("Priority", CStr "High")])
  = assoc "Priority" [("Priority", CStr "High")].
Proof.
  split; [discriminate|].
  apply (proj1 (proj2 (proj1 (proj2 flatten_tags_sections)
                         "Section" (CStr "Essential MCP Servers")
                         [("Priority", CStr "High")]))).
  discriminate.
Defined.

Lemma select_count {X : Type} (m : X -> bool) (c : X -> cell) (l : list X) :
  length (select (map m l) (map c l)) = length (List.filter m l).
Proof.
  induction l as [|x l IH]; [reflexivity|].
  cbn [map select List.filter]. destruct (m x); cbn [length]; now rewrite IH.
Qed.

Lemma count_where (k : string) (v : cell) (recs : list record) :
  k ∈ record_keys recs ->
  Py.bind (rows_where k v (from_records recs)) (fun rows => Ok (nrows rows))
  = Ok (length (List.filter
                  (fun r => cell_eqb v (default CNaN (assoc k r))) recs)).
Proof.
  intros Hk. unfold rows_where, getitem, from_records.
  rewrite (assoc_tabulate
             (fun k' => map (fun r => default CNaN (assoc k' r)) recs)).
  rewrite decide_True by exact Hk. unfold mbind, result_bind.
  cbn [Py.bind]. f_equal.
  destruct (record_keys recs) as [|k0 ks]; [now apply elem_of_nil in Hk|].
  cbn [map nrows fst snd]. rewrite map_map. apply select_count.
Qed.

Lemma count_tagged (g : record -> bool)
    (literal : list (string * list record)) :
  (forall v r, g (dict_set "Section" v r) = g r) ->
  length (List.filter g
            (flat_map (fun s => map (dict_set "Section" (CStr s.1)) s.2)
                      literal))
  = length (List.filter g (flat_map snd literal)).
Proof.
  intros Hg. induction literal as [|[cat servers] rest IH]; [reflexivity|].
  cbn [flat_map fst snd]. rewrite !List.filter_app, !length_app, IH.
  f_equal. induction servers as [|r servers IHs]; [reflexivity|].
  cbn [map List.filter]. rewrite Hg.
  destruct (g r); cbn [length]; now rewrite IHs.
Qed.

Lemma key_tagged (k : string) (literal : list (string * list record)) :
  k <> "Section" ->
  (exists r, r ∈ flat_map snd literal /\ is_Some (assoc k r)) ->
  exists r,
    r ∈ flat_map (fun s => map (dict_set "Section" (CStr s.1)) s.2) literal /\
    is_Some (assoc k r).
Proof.
  intros Hk (r & Hr & Hs).
  apply list_elem_of_In, in_flat_map in Hr as ([cat servers] & Hsec & Hr).
  exists (dict_set "Section" (CStr cat) r). split.
  - apply list_elem_of_In, in_flat_map. exists (cat, servers).
    split; [exact Hsec|]. cbn [fst snd] in *. now apply in_map.
  - now rewrite dict_set_others.
Qed.

Lemma four_counts (recs : list record) (p1 p2 p3 p4 : string) :
  p1 <> p2 -> p1 <> p3 -> p1 <> p4 -> p2 <> p3 -> p2 <> p4 -> p3 <> p4 ->
  length (List.filter (fun r => match assoc "Priority" r with
                                | Some (CStr q) => String.eqb p1 q
                                | _ => false
                                end) recs)
  + length (List.filter (fun r => match assoc "Priority" r with
                                  | Some (CStr q) => String.eqb p2 q
                                  | _ => false
                                  end) recs)
  + length (List.filter (fun r => match assoc "Priority" r with
                                  | Some (CStr q) => String.eqb p3 q
                                  | _ => false
                                  end) recs)
  + length (List.filter (fun r => match assoc "Priority" r with
                                  | Some (CStr q) => String.eqb p4 q
                                  | _ => false
                                  end) recs)
  <= length recs.
Proof.
  intros H12 H13 H14 H23 H24 H34.
  induction recs as [|r recs IH]; [reflexivity|].
  cbn [List.filter length]. revert IH.
  repeat match goal with
         | |- context [List.filter ?f recs] =>
             generalize (List.filter f recs); intro
         end.
  intros IH.
  destruct (assoc "Priority" r) as [[q|z|]|]; try lia.
  destruct (String.eqb_spec p1 q) as [<-|].
  { destruct (String.eqb_spec p2 p1); [congruence|].
    destruct (String.eqb_spec p3 p1); [congruence|].
    destruct (String.eqb_spec p4 p1); [congruence|]. cbn [length]. lia. }
  destruct (String.eqb_spec p2 q) as [<-|].
  { destruct (String.eqb_spec p3 p2); [congruence|].
    destruct (String.eqb_spec p4 p2); [congruence|]. cbn [length]. lia. }
  destruct (String.eqb_spec p3 q) as [<-|].
  { destruct (String.eqb_spec p4 p3); [congruence|]. cbn [length]. lia. }
  destruct (String.eqb p4 q); cbn [length]; lia.
Qed.

(** The counts by priority.  When some record of the guide has a priority,
    the count for [p] is the number of records whose priority is the text
    [p]: records without priority are in the table, with a gap, and count
    for nothing.  When no record has a priority the column does not exist
    and the count raises [KeyError].  The four counts the script prints
    never sum to more than the number of records. *)
Theorem priority_counts (literal : list (string * list record)) (p : string) :
  ((exists r, r ∈ flat_map snd literal /\ is_Some (assoc "Priority" r)) ->
   priority_count p (table literal)
   = Ok (length (List.filter
                   (fun r => match assoc "Priority" r with
                             | Some (CStr q) => String.eqb p q
                             | _ => false
                             end)
                   (flat_map snd literal)))) /\
  ((forall r, r ∈ flat_map snd literal -> assoc "Priority" r = None) ->
   priority_count p (table literal) = Raise KeyError) /\
  (forall c h m l,
     priority_count "Critical" (table literal) = Ok c ->
     priority_count "High" (table literal) = Ok h ->
     priority_count "Medium" (table literal) = Ok m ->
     priority_count "Low" (table literal) = Ok l ->
     c + h + m + l <= length (flat_map snd literal)).
Proof.
  assert (Hcount : forall q,
             "Priority" ∈ record_keys (records_of (run literal)) ->
             priority_count q (table literal)
             = Ok (length (List.filter
                             (fun r => match assoc "Priority" r with
                                       | Some (CStr q') => String.eqb q q'
                                       | _ => false
                                       end)
                             (flat_map snd literal)))).
  { intros q Hk. unfold priority_count, table.
    change (Py.bind (rows_where "Priority" (CStr q)
                       (from_records (records_of (run literal))))
                    (fun rows => Ok (nrows rows)) = Ok
              (length (List.filter
                             (fun r => match assoc "Priority" r with
                                       | Some (CStr q') => String.eqb q q'
                                       | _ => false
                                       end)
                             (flat_map snd literal)))).
    rewrite (count_where _ _ _ Hk). f_equal. rewrite run_records.
    rewrite count_tagged
      by (intros v r; now rewrite dict_set_others by discriminate).
    f_equal. apply List.filter_ext. intros r.
    now destruct (assoc "Priority" r) as [[q'|z|]|]. }
  destruct (keys_of_records (records_of (run literal)) [] (NoDup_nil_2))
    as [_ Hin].
  fold (record_keys (records_of (run literal))) in Hin.
  split; [|split].
  - intros Hsome. apply Hcount, Hin. right. rewrite run_records.
    apply key_tagged; [discriminate|exact Hsome].
  - intros Hnone. unfold priority_count, table, rows_where.
    rewrite getitem_missing; [reflexivity|].
    rewrite from_records_names. intros Hk.
    apply Hin in Hk as [Hk|(r & Hr & Hs)]; [now apply elem_of_nil in Hk|].
    rewrite run_records in Hr.
    apply list_elem_of_In, in_flat_map in Hr as ([cat servers] & Hsec & Hr).
    apply in_map_iff in Hr as (r0 & <- & Hr0).
    rewrite dict_set_others in Hs by discriminate.
    assert (H0 : r0 ∈ flat_map snd literal).
    { apply list_elem_of_In, in_flat_map. exists (cat, servers).
      split; [exact Hsec|exact Hr0]. }
    rewrite (Hnone r0 H0) in Hs. now destruct Hs.
  - intros c h m l Hc Hh Hm Hl.
    destruct (decide ("Priority" ∈ record_keys (records_of (run literal))))
      as [Hk|Hk].
    + rewrite (Hcount _ Hk) in Hc. rewrite (Hcount _ Hk) in Hh.
      rewrite (Hcount _ Hk) in Hm. rewrite (Hcount _ Hk) in Hl.
      assert (I : forall a b : nat, Ok a = Ok b -> b = a)
        by (intros a b E; now injection E).
      apply I in Hc, Hh, Hm, Hl. rewrite Hc, Hh, Hm, Hl.
      apply (four_counts (flat_map snd literal)
                         "Critical" "High" "Medium" "Low"); discriminate.
    + unfold priority_count, table, rows_where in Hc.
      rewrite getitem_missing in Hc; [discriminate|].
      now rewrite from_records_names.
Qed.

(** The guide of the script: fourteen servers, two of them critical, four
    high, six medium and two low. *)
Lemma priority_counts_witness :
  priority_count "Critical" (table mcp_servers_data) = Ok 2 /\
  priority_count "High" (table mcp_servers_data) = Ok 4 /\
  priority_count "Medium" (table mcp_servers_data) = Ok 6 /\
  priority_count "Low" (table mcp_servers_data) = Ok 2 /\
  2 + 4 + 6 + 2 <= length (flat_map snd mcp_servers_data).
Proof.
  assert (H : exists r, r ∈ flat_map snd mcp_servers_data /\
                        is_Some (assoc "Priority" r)).
  { eexists. split; [apply elem_of_cons; left; reflexivity|].
    eexists. reflexivity. }
  pose proof (proj1 (priority_counts mcp_servers_data "Critical") H) as Hc.
  pose proof (proj1 (priority_counts mcp_servers_data "High") H) as Hh.
  pose proof (proj1 (priority_counts mcp_servers_data "Medium") H) as Hm.
  pose proof (proj1 (priority_counts mcp_servers_data "Low") H) as Hl.
  split; [exact Hc|]. split; [exact Hh|]. split; [exact Hm|].
  split; [exact Hl|].
  exact (proj2 (proj2 (priority_counts mcp_servers_data "Low"))
               2 4 6 2 Hc Hh Hm Hl).
Defined.

End MoreGuideFacts.

Section MoreStatusFacts.
Import Py Frame TpmChart.

Lemma select_filter {X : Type} (m : X -> bool) (c : X -> cell) (l : list X) :
  select (map m l) (map c l) = map c (List.filter m l).
Proof.
  induction l as [|x l IH]; [reflexivity|].
  cbn [map select List.filter]. destruct (m x); cbn [map]; now rewrite IH.
Qed.

(** The rows of a table of records that hold [v] under [k] are the table
    of the records that do, with the columns of the whole table. *)
Lemma rows_where_records (k : string) (v : cell) (recs : list record) :
  k ∈ record_keys recs ->
  rows_where k v (from_records recs)
  = Ok (map (fun k' =>
               (k', map (fun r => default CNaN (assoc k' r))
                        (List.filter
                           (fun r => cell_eqb v (default CNaN (assoc k r)))
                           recs)))
            (record_keys recs)).
Proof.
  intros Hk. unfold rows_where, getitem, from_records.
  rewrite (assoc_tabulate
             (fun k' => map (fun r => default CNaN (assoc k' r)) recs)).
  rewrite decide_True by exact Hk. unfold mbind, result_bind.
  cbn [Py.bind]. f_equal. rewrite map_map. apply map_ext. intros k'.
  cbn [fst snd]. f_equal. rewrite map_map. apply select_filter.
Qed.

Lemma trace_step_groups (recs : list record) (ts : list trace)
    (status c : string) :
  "Status" ∈ record_keys recs ->
  "Model" ∈ record_keys recs ->
  "TPM" ∈ record_keys recs ->
  color_of status = Ok c ->
  trace_step (from_records recs) (Ok ts) status
  = Ok (ts ++ match List.filter
                      (fun r => cell_eqb (CStr status)
                                         (default CNaN (assoc "Status" r)))
                      recs with
              | [] => []
              | rs => [mk_trace status c
                         (map (fun r => default CNaN (assoc "Model" r)) rs)
                         (map (fun r => default CNaN (assoc "TPM" r)) rs)]
              end).
Proof.
  intros Hs Hm Ht Hc. unfold trace_step.
  rewrite (rows_where_records _ _ _ Hs). unfold mbind, result_bind.
  cbn [Py.bind].
  set (rs := List.filter _ recs).
  assert (Hn : nrows (map (fun k' =>
                 (k', map (fun r => default CNaN (assoc k' r)) rs))
                 (record_keys recs)) = length rs).
  { destruct (record_keys recs) as [|k0 ks]; [now apply elem_of_nil in Hs|].
    cbn [map nrows]. apply length_map. }
  rewrite Hn. destruct rs as [|r rs'] eqn:E.
  - cbn [length Nat.eqb]. now rewrite app_nil_r.
  - cbn [length Nat.eqb]. unfold getitem.
    rewrite !(assoc_tabulate
                (fun k' => map (fun r0 => default CNaN (assoc k' r0))
                               (r :: rs'))).
    rewrite !decide_True by assumption. cbn [Py.bind]. now rewrite Hc.
Qed.

(** The bars of the token chart.  When some record has a status, some a
    model and some a token limit, the loop returns one trace for each of
    the three statuses that a record has, in the order Current,
    Deprecated, Limited and with the colour of the status; the trace
    shows, in the order of the dataset, the models and limits of the
    records with that status, a gap where a record lacks one.  Records
    with another status, or none, are in no trace.  When no record has a
    status the loop raises [KeyError] at its first turn. *)
Theorem status_traces (recs : list record) :
  ("Status" ∈ record_keys recs ->
   "Model" ∈ record_keys recs ->
   "TPM" ∈ record_keys recs ->
   traces recs
   = Ok (flat_map
           (fun s =>
              match List.filter
                      (fun r => cell_eqb (CStr s.1)
                                         (default CNaN (assoc "Status" r)))
                      recs with
              | [] => []
              | rs => [mk_trace s.1 s.2
                         (map (fun r => default CNaN (assoc "Model" r)) rs)
                         (map (fun r => default CNaN (assoc "TPM" r)) rs)]
              end)
           [("Current", "#1FB8CD"); ("Deprecated", "#B4413C");
            ("Limited", "#D2BA4C")])) /\
  ("Status" ∉ record_keys recs -> traces recs = Raise KeyError).
Proof.
  split.
  - intros Hs Hm Ht. unfold traces, traces_for, statuses.
    cbn [fold_left flat_map fst snd].
    assert (C1 : color_of "Current" = Ok "#1FB8CD") by reflexivity.
    assert (C2 : color_of "Deprecated" = Ok "#B4413C") by reflexivity.
    assert (C3 : color_of "Limited" = Ok "#D2BA4C") by reflexivity.
    rewrite (trace_step_groups recs [] "Current" "#1FB8CD" Hs Hm Ht C1).
    rewrite (trace_step_groups recs _ "Deprecated" "#B4413C" Hs Hm Ht C2).
    rewrite (trace_step_groups recs _ "Limited" "#D2BA4C" Hs Hm Ht C3).
    rewrite app_nil_r. cbn [app]. now rewrite <- app_assoc.
  - intros Hs. unfold traces, traces_for, statuses. cbn [fold_left].
    unfold trace_step at 3. unfold rows_where.
    rewrite getitem_missing by (now rewrite from_records_names).
    reflexivity.
Qed.

(** The seven models of the script make three traces of four, two and one
    bars. *)
Lemma status_traces_witness :
  exists ts,
    traces data = Ok ts /\
    map (fun t => (trace_name t, length (trace_y t), length (trace_x t))) ts
    = [("Current", 4, 4); ("Deprecated", 2, 2); ("Limited", 1, 1)].
Proof.
  eexists. split.
  - apply (proj1 (status_traces data));
      apply existsb_eqb; vm_compute; reflexivity.
  - vm_compute. reflexivity.
Defined.

End MoreStatusFacts.
